(** * Chef Gemini RAG API: a shallow embedding of [main.py]

    The service is thin orchestration over two external collaborators, the
    vector store ([collection.query]) and the hosted model
    ([model.generate_content]).  Both are taken as oracles of an environment
    [Env]; every call made to them is recorded in a trace of [Event]s, so
    that statements such as "the store is queried once" or "the model is not
    invoked" are statements about that trace.

    Python strings are [string]s (the bytes of their UTF-8 encoding); the
    metadata mappings of the store and the process environment are
    [gmap string _]; JSON objects and the dicts the handler returns are lists
    of items in insertion order; lists are [list]s indexed with [!!]; a raised
    [Exception] is the left injection of a sum. *)

From stdpp Require Import base option list strings gmap pretty.

Local Open Scope stdpp_scope.

(** ** Strings *)

(** The line feed written [\n] in the source. *)
Definition LF : string := String (Ascii.ascii_of_nat 10) EmptyString.

(** [sep.join(xs)] on a list of strings. *)
Fixpoint join (sep : string) (xs : list string) : string :=
  match xs with
  | [] => ""
  | [x] => x
  | x :: rest => x +:+ sep +:+ join sep rest
  end.

(** [s in t] for strings: [s] occurs in [t] as a contiguous block. *)
Definition substring_of (s t : string) : Prop :=
  ∃ before after, t = before +:+ s +:+ after.

(** Concatenation of a list of strings, left to right. *)
Definition concat_str (xs : list string) : string :=
  foldr String.append "" xs.

(** ** Python values met by the service *)

(** An instance of (a subclass of) [Exception]: its class name and the text
    [str(e)] gives for it.  That text is all the source ever reads. *)
Record Exception := mkException { exc_class : string; exc_str : string }.

(** [xs[i]] with [i] out of range. *)
Definition IndexError_list : Exception :=
  mkException "IndexError" "list index out of range".
(** [None[i]]. *)
Definition TypeError_subscript : Exception :=
  mkException "TypeError" "'NoneType' object is not subscriptable".
(** [None.get(...)]. *)
Definition AttributeError_get : Exception :=
  mkException "AttributeError" "'NoneType' object has no attribute 'get'".

(** The values a metadata mapping of the store holds.  A float is carried as
    the text [str] gives for it. *)
Inductive MetaValue :=
| MStr (s : string)
| MInt (n : Z)
| MFloat (repr : string)
| MBool (b : bool).

(** [str(v)], which is also what a replacement field [{v}] of an f-string
    inserts. *)
Definition str (v : MetaValue) : string :=
  match v with
  | MStr s => s
  | MInt n => pretty n
  | MFloat repr => repr
  | MBool true => "True"
  | MBool false => "False"
  end.

(** [str(c)] for a value of type [Optional[str]]. *)
Definition str_optional (c : option string) : string :=
  match c with
  | Some s => s
  | None => "None"
  end.

(** [d.get(key, fallback)]. *)
Definition dict_get (d : gmap string MetaValue) (key : string)
    (fallback : MetaValue) : MetaValue :=
  match d !! key with
  | Some v => v
  | None => fallback
  end.

(** JSON values, for request and response bodies. *)
#[local] Set Warnings "-register-all".
Inductive json :=
| JNull
| JBool (b : bool)
| JNum (n : Z)
| JStr (s : string)
| JArr (items : list json)
| JObj (fields : list (string * json)).

#[local] Set Warnings "+register-all".

(** A Python dict with string keys, as the list of its items in insertion
    order. *)
Abbreviation dict := (list (string * json)).

(** [d[key]] for the dict built from [fields] in order: a later item with the
    same key replaces an earlier one. *)
Fixpoint dict_lookup (key : string) (fields : dict) : option json :=
  match fields with
  | [] => None
  | (k, v) :: rest =>
      match dict_lookup key rest with
      | Some v' => Some v'
      | None => if decide (k = key) then Some v else None
      end
  end.

(** ** The external collaborators *)

(** What [collection.query] returns: one list per query text, or [None] for
    a field that was not computed.  A record stored without metadata has
    [None] in place of its mapping. *)
Record QueryResult := mkQueryResult {
  qr_documents : option (list (list string));
  qr_metadatas : option (list (list (option (gmap string MetaValue))))
}.

(** What [model.generate_content] returns; reading [.text] may itself
    raise. *)
Record GenerateContentResponse := mkResponse {
  response_text : Exception + string
}.

Record Env := mkEnv {
  collection_query :
    list string → nat → list string → Exception + QueryResult;
  model_generate_content : string → Exception + GenerateContentResponse
}.

Inductive Event :=
| EvQuery (query_texts : list string) (n_results : nat) (include : list string)
| EvGenerate (prompt : string).

(** ** A state-and-exception monad for the request path *)

Definition M (A : Type) : Type :=
  Env → list Event → (Exception + A) * list Event.

#[global] Instance M_ret : MRet M := λ A a _ tr, (inr a, tr).

Definition raise {A} (e : Exception) : M A := λ _ tr, (inl e, tr).

#[global] Instance M_bind : MBind M := λ A B k m env tr,
  match m env tr with
  | (inl e, tr') => (inl e, tr')
  | (inr a, tr') => k a env tr'
  end.

(** [try: m  except Exception as e: h e]. *)
Definition try_except {A} (m : M A) (h : Exception → M A) : M A :=
  λ env tr,
    match m env tr with
    | (inl e, tr') => h e env tr'
    | (inr a, tr') => (inr a, tr')
    end.

(** A pure computation that may raise. *)
Definition lift {A} (r : Exception + A) : M A :=
  match r with
  | inl e => raise e
  | inr a => mret a
  end.

Definition query (query_texts : list string) (n_results : nat)
    (include : list string) : M QueryResult :=
  λ env tr,
    (collection_query env query_texts n_results include,
     tr ++ [EvQuery query_texts n_results include]).

Definition generate_content (prompt : string) : M GenerateContentResponse :=
  λ env tr, (model_generate_content env prompt, tr ++ [EvGenerate prompt]).

(** ** [format_with_gemini] *)

(** The dict [{"documents": ..., "metadatas": ...}] handed to
    [format_with_gemini]. *)
Record RecipesData := mkRecipesData {
  documents : list string;
  metadatas : list (option (gmap string MetaValue))
}.

(** The three [context_text += ...] of one loop iteration. *)
Definition add_option (context_text : string) (i : nat)
    (meta : gmap string MetaValue) (doc : string) : string :=
  let context_text :=
    context_text +:+
      (LF +:+ "--- OPTION " +:+ pretty (i + 1) +:+ ": "
       +:+ str (dict_get meta "RecipeName" (MStr "Unknown Recipe"))
       +:+ " ---" +:+ LF) in
  let context_text :=
    context_text +:+
      ("Cooking Time: "
       +:+ str (dict_get meta "TotalTimeInMins" (MStr "N/A"))
       +:+ " mins | Servings: "
       +:+ str (dict_get meta "Servings" (MStr "N/A")) +:+ LF) in
  context_text +:+ ("Instructions: " +:+ doc +:+ LF).

(** The loop [for i, doc in enumerate(recipes_data['documents'])], entered
    at index [i] with the documents still to visit. *)
Fixpoint context_loop (metas : list (option (gmap string MetaValue)))
    (i : nat) (docs : list string) (context_text : string)
    : Exception + string :=
  match docs with
  | [] => inr context_text
  | doc :: rest =>
      match metas !! i with
      | None => inl IndexError_list
      | Some None => inl AttributeError_get
      | Some (Some meta) =>
          context_loop metas (S i) rest (add_option context_text i meta doc)
      end
  end.

Definition build_context (recipes_data : RecipesData) : Exception + string :=
  context_loop (metadatas recipes_data) 0 (documents recipes_data) "".

(** The text of the prompt before [context_text]. *)
Definition prompt_head (available_ingredients : list string)
    (constraints : option string) : string :=
  ("You are a friendly, expert kitchen assistant. A home cook has: "
     +:+ join ", " available_ingredients +:+ "." +:+ LF)
  +:+ ("IMPORTANT DIETARY/EQUIPMENT CONSTRAINTS: "
     +:+ str_optional constraints +:+ LF +:+ LF)
  +:+ "Based on their ingredients AND the constraints above, suggest the 3 best matches from the provided database. "
  +:+ "If a recipe uses an ingredient they are allergic to or requires equipment they don't have, "
  +:+ ("you MUST modify the steps to accommodate them or explain why a certain substitution was made." +:+ LF +:+ LF)
  +:+ ("Don't mention 'searching a database'—just offer your best culinary advice based on these recipes:" +:+ LF).

Definition make_prompt (available_ingredients : list string)
    (context_text : string) (constraints : option string) : string :=
  prompt_head available_ingredients constraints +:+ context_text.

(** Lines 38-54: everything before the [try]. *)
Definition build_prompt (available_ingredients : list string)
    (recipes_data : RecipesData) (constraints : option string)
    : Exception + string :=
  match build_context recipes_data with
  | inl e => inl e
  | inr context_text =>
      inr (make_prompt available_ingredients context_text constraints)
  end.

(** Lines 56-60: the guarded model call. *)
Definition generate (prompt : string) : M string :=
  try_except
    (response ← generate_content prompt ;
     lift (response_text response))
    (λ e, mret ("Error generating content: " +:+ exc_str e)).

Definition format_with_gemini (available_ingredients : list string)
    (recipes_data : RecipesData) (constraints : option string) : M string :=
  prompt ← lift (build_prompt available_ingredients recipes_data constraints) ;
  generate prompt.

(** ** The request model and its validation *)

(** [class RecipeRequest(BaseModel)]. *)
Record RecipeRequest := mkRecipeRequest {
  ingredients : list string;
  constraints : option string
}.

Inductive ValidationError :=
| BodyNotObject
| FieldRequired (field : string)
| ListExpected (field : string)
| StringExpected (field : string).

(** A JSON array as a [List[str]]: every item has to be a string. *)
Fixpoint as_str_list (items : list json) : option (list string) :=
  match items with
  | [] => Some []
  | JStr s :: rest => cons s <$> as_str_list rest
  | _ :: _ => None
  end.

(** Validation of a JSON body against the fields [RecipeRequest] declares:
    [ingredients: List[str]] is required and carries no length constraint;
    [constraints: Optional[str]] takes [null] or a string and defaults to the
    string ["None"] when the key is missing. *)
Definition validate (body : json) : ValidationError + RecipeRequest :=
  match body with
  | JObj fields =>
      match dict_lookup "ingredients" fields with
      | None => inl (FieldRequired "ingredients")
      | Some (JArr items) =>
          match as_str_list items with
          | None => inl (StringExpected "ingredients")
          | Some ingredients =>
              match dict_lookup "constraints" fields with
              | None => inr (mkRecipeRequest ingredients (Some "None"))
              | Some JNull => inr (mkRecipeRequest ingredients None)
              | Some (JStr s) => inr (mkRecipeRequest ingredients (Some s))
              | Some _ => inl (StringExpected "constraints")
              end
          end
      | Some _ => inl (ListExpected "ingredients")
      end
  | _ => inl BodyNotObject
  end.

(** ** [recommend_recipes] *)

(** [fastapi.HTTPException(status_code=..., detail=...)]. *)
Record HTTPException := mkHTTPException {
  status_code : nat;
  detail : string
}.

(** [not xs] for a value that is a list or [None]. *)
Definition falsy {A} (xs : option (list A)) : bool :=
  match xs with
  | None | Some [] => true
  | Some (_ :: _) => false
  end.

(** [xs[0]] for a value that is a list or [None]. *)
Definition item0 {A} (xs : option (list A)) : Exception + A :=
  match xs with
  | None => inl TypeError_subscript
  | Some [] => inl IndexError_list
  | Some (x :: _) => inr x
  end.

Definition is_empty {A} (xs : list A) : bool :=
  match xs with
  | [] => true
  | _ :: _ => false
  end.

(** [Optional[str]] as a JSON value. *)
Definition json_of_optional (c : option string) : json :=
  match c with
  | Some s => JStr s
  | None => JNull
  end.

Definition apology : dict :=
  [("recommendation",
    JStr "I'm sorry, I couldn't find any recipes that match those ingredients in my current database.")].

Definition success (request : RecipeRequest) (final_answer : string) : dict :=
  [("status", JStr "success");
   ("ingredients_received", JArr (JStr <$> ingredients request));
   ("constraints_applied", json_of_optional (constraints request));
   ("recommendation", JStr final_answer)].

(** Lines 79-108: the body of the handler's [try]. *)
Definition recommend_body (request : RecipeRequest) : M dict :=
  let query_string := join ", " (ingredients request) in
  results ← query [query_string] 3 ["documents"; "metadatas"] ;
  if falsy (qr_documents results) then mret apology else
  first ← lift (item0 (qr_documents results)) ;
  if is_empty first then mret apology else
  docs ← lift (item0 (qr_documents results)) ;
  metas ← lift (item0 (qr_metadatas results)) ;
  let recipes_for_gemini := mkRecipesData docs metas in
  final_answer ←
    format_with_gemini (ingredients request) recipes_for_gemini
      (constraints request) ;
  mret (success request final_answer).

(** Lines 77-111: the handler either returns a dict or raises an
    [HTTPException]. *)
Definition recommend_recipes (request : RecipeRequest) (env : Env)
    (tr : list Event) : (HTTPException + dict) * list Event :=
  match recommend_body request env tr with
  | (inr d, tr') => (inr d, tr')
  | (inl e, tr') =>
      (inl (mkHTTPException 500 ("Internal Server Error: " +:+ exc_str e)),
       tr')
  end.

(** ** The endpoint, as the framework serves it *)

Inductive Response :=
| JSONResponse (content : dict)
| ErrorResponse (status : nat) (detail : string)
| UnprocessableEntity (error : ValidationError).

Definition response_status (r : Response) : nat :=
  match r with
  | JSONResponse _ => 200
  | ErrorResponse status _ => status
  | UnprocessableEntity _ => 422
  end.

(** [POST /recommend]: the body is validated before the handler runs; a
    returned dict is sent with status 200 and an [HTTPException] with its own
    status code and detail. *)
Definition post_recommend (body : json) (env : Env) (tr : list Event)
    : Response * list Event :=
  match validate body with
  | inl error => (UnprocessableEntity error, tr)
  | inr request =>
      match recommend_recipes request env tr with
      | (inr d, tr') => (JSONResponse d, tr')
      | (inl e, tr') => (ErrorResponse (status_code e) (detail e), tr')
      end
  end.

(** ** Module initialisation (lines 9-25) *)

(** [load_dotenv()]: the variables of the [.env] file are added to the
    process environment, those already set keeping their value. *)
Definition load_dotenv (environ dotenv : gmap string string)
    : gmap string string :=
  environ ∪ dotenv.

Inductive InitEvent :=
| EvConfigure (api_key : string)
| EvGenerativeModel (name : string)
| EvPersistentClient (path : string)
| EvGetOrCreateCollection (name : string)
| EvFastAPI (title : string).

(** [not s] for a value that is a string or [None]. *)
Definition falsy_str (s : option string) : bool :=
  match s with
  | None | Some "" => true
  | Some (String _ _) => false
  end.

(** Running the module top to bottom: the exception that ends it, if any,
    and the clients set up until then. *)
Definition module_init (environ dotenv : gmap string string)
    : option Exception * list InitEvent :=
  let environ := load_dotenv environ dotenv in
  let API_KEY := environ !! "GEMINI_API_KEY" in
  if falsy_str API_KEY then
    (Some (mkException "ValueError"
       "GEMINI_API_KEY not found. Please set it in your environment or .env file."),
     [])
  else
    (None,
     [EvConfigure (default "" API_KEY);
      EvGenerativeModel "gemini-1.5-flash";
      EvPersistentClient "recipe_db";
      EvGetOrCreateCollection "recipes";
      EvFastAPI "Chef Gemini RAG API"]).

(** The application object exists, and requests reach [post_recommend], only
    when the module ran to its end. *)
Definition serve (environ dotenv : gmap string string) (body : json)
    (env : Env) : option (Response * list Event) :=
  match module_init environ dotenv with
  | (Some _, _) => None
  | (None, _) => Some (post_recommend body env [])
  end.

(** ** Vocabulary of the statements *)

(** The section of the prompt for the record at index [i]. *)
Definition option_section (i : nat) (meta : gmap string MetaValue)
    (doc : string) : string :=
  add_option "" i meta doc.

(** What a section shows for a metadata key: the value when the key is
    present, the placeholder when it is absent. *)
Definition shows (section : string) (meta : gmap string MetaValue)
    (key placeholder : string) : Prop :=
  (∀ v, meta !! key = Some v → substring_of (str v) section)
  ∧ (meta !! key = None → substring_of placeholder section).

(** The text [generate] returns in an environment. *)
Definition generation_text (env : Env) (prompt : string) : string :=
  match model_generate_content env prompt with
  | inl e => "Error generating content: " +:+ exc_str e
  | inr response =>
      match response_text response with
      | inl e => "Error generating content: " +:+ exc_str e
      | inr text => text
      end
  end.

(** The documents retrieved for the one query text: none when the field is
    [None] or holds no list. *)
Definition retrieved_documents (results : QueryResult) : list string :=
  match qr_documents results with
  | Some (first :: _) => first
  | _ => []
  end.

(** The call the handler makes to the store, and what the store answers. *)
Definition the_query (request : RecipeRequest) : Event :=
  EvQuery [join ", " (ingredients request)] 3 ["documents"; "metadatas"].

Definition store_answer (request : RecipeRequest) (env : Env)
    : Exception + QueryResult :=
  collection_query env [join ", " (ingredients request)] 3
    ["documents"; "metadatas"].

(** The ways the body of the handler's [try] can go. *)
Inductive Run (request : RecipeRequest) (env : Env) (tr : list Event)
    : (Exception + dict) * list Event → Prop :=
| RunStoreRaises e :
    store_answer request env = inl e →
    Run request env tr (inl e, tr ++ [the_query request])
| RunNoDocuments results :
    store_answer request env = inr results →
    retrieved_documents results = [] →
    Run request env tr (inr apology, tr ++ [the_query request])
| RunIndexingRaises results e :
    store_answer request env = inr results →
    retrieved_documents results ≠ [] →
    item0 (qr_metadatas results) = inl e →
    Run request env tr (inl e, tr ++ [the_query request])
| RunPromptRaises results metas e :
    store_answer request env = inr results →
    retrieved_documents results ≠ [] →
    item0 (qr_metadatas results) = inr metas →
    build_prompt (ingredients request)
      (mkRecipesData (retrieved_documents results) metas)
      (constraints request) = inl e →
    Run request env tr (inl e, tr ++ [the_query request])
| RunSuccess results metas prompt :
    store_answer request env = inr results →
    retrieved_documents results ≠ [] →
    item0 (qr_metadatas results) = inr metas →
    build_prompt (ingredients request)
      (mkRecipesData (retrieved_documents results) metas)
      (constraints request) = inr prompt →
    Run request env tr
      (inr (success request (generation_text env prompt)),
       tr ++ [the_query request; EvGenerate prompt]).

(** The calls to the store and to the model recorded in a trace. *)
Definition store_queries (tr : list Event)
    : list (list string * nat * list string) :=
  omap (λ ev,
          match ev with
          | EvQuery query_texts n_results include =>
              Some (query_texts, n_results, include)
          | EvGenerate _ => None
          end) tr.

Definition prompts_sent (tr : list Event) : list string :=
  omap (λ ev,
          match ev with
          | EvGenerate prompt => Some prompt
          | EvQuery _ _ _ => None
          end) tr.

(** The value of a key of a JSON body. *)
Definition body_field (key : string) (body : json) : option json :=
  match body with
  | JObj fields => dict_lookup key fields
  | _ => None
  end.

(** Where in the request path an exception is raised.  Joining the
    ingredients raises nothing, since the request model makes them strings. *)
Inductive Stage := StoreQuery | ResultIndexing | PromptBuilding | Generation.

(** [raised_in request env e stage]: serving [request] in [env], the
    exception [e] is raised at [stage]. *)
Inductive raised_in (request : RecipeRequest) (env : Env) (e : Exception)
    : Stage → Prop :=
| raised_store :
    store_answer request env = inl e →
    raised_in request env e StoreQuery
| raised_indexing results :
    store_answer request env = inr results →
    retrieved_documents results ≠ [] →
    item0 (qr_metadatas results) = inl e →
    raised_in request env e ResultIndexing
| raised_prompt results metas :
    store_answer request env = inr results →
    retrieved_documents results ≠ [] →
    item0 (qr_metadatas results) = inr metas →
    build_prompt (ingredients request)
      (mkRecipesData (retrieved_documents results) metas)
      (constraints request) = inl e →
    raised_in request env e PromptBuilding
| raised_generate results metas prompt :
    store_answer request env = inr results →
    retrieved_documents results ≠ [] →
    item0 (qr_metadatas results) = inr metas →
    build_prompt (ingredients request)
      (mkRecipesData (retrieved_documents results) metas)
      (constraints request) = inr prompt →
    model_generate_content env prompt = inl e →
    raised_in request env e Generation
| raised_text results metas prompt response :
    store_answer request env = inr results →
    retrieved_documents results ≠ [] →
    item0 (qr_metadatas results) = inr metas →
    build_prompt (ingredients request)
      (mkRecipesData (retrieved_documents results) metas)
      (constraints request) = inr prompt →
    model_generate_content env prompt = inr response →
    response_text response = inl e →
    raised_in request env e Generation.

(** The [constraints] item of a body: absent, [null] or a string. *)
Definition constraints_item (c : option (option string)) : dict :=
  match c with
  | None => []
  | Some value => [("constraints", json_of_optional value)]
  end.

(** Sample data: a store holding one recipe, or returning two documents with
    one mapping, and a model that answers or is out of quota. *)
Definition pancakes : gmap string MetaValue :=
  {[ "RecipeName" := MStr "Pancakes"; "TotalTimeInMins" := MInt 20 ]}.

Definition store_of (documents : list string)
    (metadatas : list (option (gmap string MetaValue)))
    : list string → nat → list string → Exception + QueryResult :=
  λ _ _ _, inr (mkQueryResult (Some [documents]) (Some [metadatas])).

Definition model_up : string → Exception + GenerateContentResponse :=
  λ _, inr (mkResponse (inr "Try the pancakes.")).

Definition model_down : string → Exception + GenerateContentResponse :=
  λ _, inl (mkException "ResourceExhausted" "429 quota exceeded").

Definition eggs_flour : RecipeRequest :=
  mkRecipeRequest ["eggs"; "flour"] (Some "None").

Definition eggs_flour_body : json :=
  JObj [("ingredients", JArr [JStr "eggs"; JStr "flour"])].

(** ** [health_check] *)

(** Lines 63-70: the dict is built from the answer of [collection.count()];
    the handler has no [try], so what [count] raises leaves the handler. *)
Definition health_check (collection_count : Exception + Z)
    : Exception + dict :=
  match collection_count with
  | inl e => inl e
  | inr database_count =>
      inr [("status", JStr "online");
           ("database_count", JNum database_count);
           ("model", JStr "gemini-1.5-flash")]
  end.

(** ** Further vocabulary *)

(** The JSON body that carries a request in full. *)
Definition request_body (request : RecipeRequest) : json :=
  JObj [("ingredients", JArr (JStr <$> ingredients request));
        ("constraints", json_of_optional (constraints request))].

(** Two entries of a metadata list that the prompt cannot tell apart: both
    missing, both [None], or two mappings with the same values under the
    three keys the prompt reads. *)
Definition same_for_prompt
    (a b : option (option (gmap string MetaValue))) : Prop :=
  match a, b with
  | None, None => True
  | Some None, Some None => True
  | Some (Some m1), Some (Some m2) =>
      m1 !! "RecipeName" = m2 !! "RecipeName"
      ∧ m1 !! "TotalTimeInMins" = m2 !! "TotalTimeInMins"
      ∧ m1 !! "Servings" = m2 !! "Servings"
  | _, _ => False
  end.

(** A mapping with fields the prompt does not read. *)
Definition pancakes_full : gmap string MetaValue :=
  <[ "Cuisine" := MStr "American" ]> (<[ "Rating" := MInt 5 ]> pancakes).

(** ** [format_with_gemini] on shared objects *)

(** The arguments of [format_with_gemini] are references: the ingredient
    list is the list of the request (the handler puts the same list in its
    answer), and [recipes_data] is a dict that holds the two lists of the
    store's result, whose mappings are objects of their own.  Here the
    function is taken statement by statement over a store of such objects, so
    that a statement which changed one of them would show. *)
Inductive Object :=
| StrList (items : list string)
| MetaList (items : list (option nat))
| MetaDict (items : gmap string MetaValue)
| DataDict (items : gmap string nat).

(** How a statement ends: it returns, it raises, or the store holds no
    object of the class the statement is for (no Python run is like that). *)
Inductive Outcome (A : Type) :=
| Returns (a : A)
| Raises (e : Exception)
| Stuck.
Arguments Returns {A} a.
Arguments Raises {A} e.
Arguments Stuck {A}.

Definition outcome_of {A} (r : Exception + A) : Outcome A :=
  match r with
  | inl e => Raises e
  | inr a => Returns a
  end.

(** Statements read and may change the store of objects, and may call the
    collaborators. *)
Definition P (A : Type) : Type :=
  Env → gmap nat Object → list Event →
  Outcome A * gmap nat Object * list Event.

#[global] Instance P_ret : MRet P := λ A a _ σ tr, (Returns a, σ, tr).

#[global] Instance P_bind : MBind P := λ A B k m env σ tr,
  match m env σ tr with
  | (Returns a, σ', tr') => k a env σ' tr'
  | (Raises e, σ', tr') => (Raises e, σ', tr')
  | (Stuck, σ', tr') => (Stuck, σ', tr')
  end.

(** An expression that only reads the store. *)
Definition read {A} (f : gmap nat Object → Outcome A) : P A :=
  λ _ σ tr, (f σ, σ, tr).

(** A call that goes to the collaborators and touches no object. *)
Definition call {A} (m : M A) : P A :=
  λ env σ tr,
    match m env tr with
    | (r, tr') => (outcome_of r, σ, tr')
    end.

(** [xs.clear()] on a list of strings: a statement that changes the store.
    [format_with_gemini] has no such statement. *)
Definition clear (xs : nat) : P () :=
  λ _ σ tr,
    match σ !! xs with
    | Some (StrList _) => (Returns (), <[xs := StrList []]> σ, tr)
    | _ => (Stuck, σ, tr)
    end.

(** [str(KeyError(key))]. *)
Definition KeyError (key : string) : Exception :=
  mkException "KeyError" ("'" +:+ key +:+ "'").

(** [d[key]] on the dict of the two lists. *)
Definition getitem (d : nat) (key : string) : P nat :=
  read (λ σ,
    match σ !! d with
    | Some (DataDict items) =>
        match items !! key with
        | Some value => Returns value
        | None => Raises (KeyError key)
        end
    | _ => Stuck
    end).

(** [len(xs)] on a list of strings. *)
Definition len (xs : nat) : P nat :=
  read (λ σ,
    match σ !! xs with
    | Some (StrList items) => Returns (length items)
    | _ => Stuck
    end).

(** The step of the iterator of [enumerate(xs)] that stands at index [i]:
    the item there, or the end of the list as it is now. *)
Definition next_item (xs : nat) (i : nat) : P (option string) :=
  read (λ σ,
    match σ !! xs with
    | Some (StrList items) => Returns (items !! i)
    | _ => Stuck
    end).

(** [xs[i]] on the list of metadata. *)
Definition getitem_meta (xs : nat) (i : nat) : P (option nat) :=
  read (λ σ,
    match σ !! xs with
    | Some (MetaList items) =>
        match items !! i with
        | Some meta => Returns meta
        | None => Raises IndexError_list
        end
    | _ => Stuck
    end).

(** The object [meta.get] is called on: the mapping, or [AttributeError] for
    [None]. *)
Definition mapping_of (meta : option nat) : P (gmap string MetaValue) :=
  read (λ σ,
    match meta with
    | None => Raises AttributeError_get
    | Some m =>
        match σ !! m with
        | Some (MetaDict items) => Returns items
        | _ => Stuck
        end
    end).

(** The items [sep.join(xs)] reads. *)
Definition items_of (xs : nat) : P (list string) :=
  read (λ σ,
    match σ !! xs with
    | Some (StrList items) => Returns items
    | _ => Stuck
    end).

(** The loop of lines 39-43 from index [i] on.  [steps] bounds the steps of
    the iterator; the loop is entered with one more than the length of the
    list. *)
Fixpoint context_steps (steps : nat) (recipes_data docs : nat) (i : nat)
    (context_text : string) : P string :=
  match steps with
  | 0 => read (λ _, Stuck)
  | S steps =>
      item ← next_item docs i;
      match item with
      | None => mret context_text
      | Some doc =>
          metas ← getitem recipes_data "metadatas";
          meta ← getitem_meta metas i;
          mapping ← mapping_of meta;
          context_steps steps recipes_data docs (S i)
            (add_option context_text i mapping doc)
      end
  end.

Definition build_context_shared (recipes_data : nat) : P string :=
  docs ← getitem recipes_data "documents";
  n ← len docs;
  context_steps (S n) recipes_data docs 0 "".

(** Lines 38-54 on references: the loop, then the f-string of the prompt,
    which reads the ingredient list for [join]. *)
Definition build_prompt_shared (available_ingredients recipes_data : nat)
    (constraints : option string) : P string :=
  context_text ← build_context_shared recipes_data;
  ingredients ← items_of available_ingredients;
  mret (make_prompt ingredients context_text constraints).

(** Lines 33-60 on references. *)
Definition format_with_gemini_shared (available_ingredients recipes_data : nat)
    (constraints : option string) : P string :=
  prompt ← build_prompt_shared available_ingredients recipes_data constraints;
  call (generate prompt).

(** The values the references stand for in a store. *)
Definition the_strings (σ : gmap nat Object) (xs : nat)
    : option (list string) :=
  match σ !! xs with
  | Some (StrList items) => Some items
  | _ => None
  end.

Definition the_mapping (σ : gmap nat Object) (meta : option nat)
    : option (option (gmap string MetaValue)) :=
  match meta with
  | None => Some None
  | Some m =>
      match σ !! m with
      | Some (MetaDict items) => Some (Some items)
      | _ => None
      end
  end.

Definition the_recipes (σ : gmap nat Object) (recipes_data : nat)
    : option RecipesData :=
  match σ !! recipes_data with
  | Some (DataDict items) =>
      docs ← items !! "documents";
      metas ← items !! "metadatas";
      documents ← the_strings σ docs;
      match σ !! metas with
      | Some (MetaList entries) =>
          metadatas ← mapM (the_mapping σ) entries;
          Some (mkRecipesData documents metadatas)
      | _ => None
      end
  | _ => None
  end.

(** Two stores that hold the same request and the same records: in the
    first the objects are apart, in the second the list of ingredients is
    also the list of documents and both records share one mapping. *)
Definition store_apart : gmap nat Object :=
  {[ 1 := StrList ["eggs"; "flour"];
     2 := DataDict {[ "documents" := 3; "metadatas" := 4 ]};
     3 := StrList ["eggs"; "flour"];
     4 := MetaList [Some 5; Some 6];
     5 := MetaDict pancakes;
     6 := MetaDict pancakes ]}.

Definition store_aliased : gmap nat Object :=
  {[ 10 := DataDict {[ "documents" := 11; "metadatas" := 12 ]};
     11 := StrList ["eggs"; "flour"];
     12 := MetaList [Some 13; Some 13];
     13 := MetaDict pancakes ]}.

(** * Properties *)

(** ** Strings *)

Lemma str_app_cons (x : Ascii.ascii) (a b : string) :
  String x a +:+ b = String x (a +:+ b).
Proof. reflexivity. Qed.

Lemma str_app_assoc (a b c : string) : (a +:+ b) +:+ c = a +:+ b +:+ c.
Proof.
  induction a as [|x a IH]; [done|]. by rewrite !str_app_cons, IH.
Qed.

Lemma str_app_nil_r (a : string) : a +:+ "" = a.
Proof.
  induction a as [|x a IH]; [done|]. by rewrite str_app_cons, IH.
Qed.

Lemma substring_of_refl (s : string) : substring_of s s.
Proof. exists "", "". by rewrite str_app_nil_r. Qed.

Lemma substring_of_app_l (s a b : string) :
  substring_of s a → substring_of s (a +:+ b).
Proof.
  intros (before & after & ->). exists before, (after +:+ b).
  by rewrite !str_app_assoc.
Qed.

Lemma substring_of_app_r (s a b : string) :
  substring_of s b → substring_of s (a +:+ b).
Proof.
  intros (before & after & ->). exists (a +:+ before), after.
  by rewrite !str_app_assoc.
Qed.

(** Finds [s] among the pieces of a concatenation. *)
Ltac find_substring :=
  first [ apply substring_of_refl
        | apply substring_of_app_l; find_substring
        | apply substring_of_app_r; find_substring ].

(** ** The monad *)

Lemma bind_raise {A B} (m : M A) (k : A → M B) env tr e tr' :
  m env tr = (inl e, tr') → (m ≫= k) env tr = (inl e, tr').
Proof. intros H. unfold mbind, M_bind. by rewrite H. Qed.

Lemma bind_ret {A B} (m : M A) (k : A → M B) env tr a tr' :
  m env tr = (inr a, tr') → (m ≫= k) env tr = k a env tr'.
Proof. intros H. unfold mbind, M_bind. by rewrite H. Qed.

Lemma lift_inl {A} (e : Exception) env tr :
  lift (A := A) (inl e) env tr = (inl e, tr).
Proof. done. Qed.

Lemma lift_inr {A} (a : A) env tr : lift (inr a) env tr = (inr a, tr).
Proof. done. Qed.

(** ** The prompt *)

Lemma add_option_section context_text i meta doc :
  add_option context_text i meta doc
  = context_text +:+ option_section i meta doc.
Proof.
  unfold option_section, add_option. cbn zeta.
  change ("" +:+ ?x) with x. by rewrite !str_app_assoc.
Qed.

(** When every document has its mapping, the loop appends one section per
    document, in order. *)
Lemma context_loop_sections metas
    (records : list (string * gmap string MetaValue)) :
  ∀ i context_text,
    (∀ j doc meta,
       records !! j = Some (doc, meta) → metas !! (i + j) = Some (Some meta)) →
    context_loop metas i (records.*1) context_text
    = inr (context_text
           +:+ concat_str (imap (λ j r, option_section (i + j) r.2 r.1) records)).
Proof.
  induction records as [|[doc meta] records IH]; intros i context_text Hmetas.
  - simpl. by rewrite str_app_nil_r.
  - cbn [fmap list_fmap fst context_loop].
    rewrite <-(Nat.add_0_r i) at 1.
    rewrite (Hmetas 0 doc meta eq_refl).
    rewrite IH.
    + rewrite add_option_section, str_app_assoc. cbn [imap concat_str foldr snd fst].
      rewrite Nat.add_0_r. do 3 f_equal. unfold concat_str. f_equal.
      apply imap_ext. intros j r _. simpl. by rewrite Nat.add_succ_r.
    + intros j d m Hj. rewrite Nat.add_succ_l, <-Nat.add_succ_r.
      exact (Hmetas (S j) d m Hj).
Qed.

Lemma option_section_shows i meta doc :
  shows (option_section i meta doc) meta "RecipeName" "Unknown Recipe"
  ∧ shows (option_section i meta doc) meta "TotalTimeInMins" "N/A"
  ∧ shows (option_section i meta doc) meta "Servings" "N/A"
  ∧ substring_of doc (option_section i meta doc).
Proof.
  unfold option_section, add_option, shows, dict_get. cbn zeta.
  change ("" +:+ ?x) with x.
  repeat split.
  1,3,5: intros v ->; find_substring.
  1-3: intros ->; find_substring.
  find_substring.
Qed.

Lemma prompt_head_shows available_ingredients constraints :
  substring_of (join ", " available_ingredients)
    (prompt_head available_ingredients constraints)
  ∧ substring_of (str_optional constraints)
      (prompt_head available_ingredients constraints).
Proof. unfold prompt_head. split; find_substring. Qed.

Lemma build_context_records
    (records : list (string * gmap string MetaValue)) :
  build_context (mkRecipesData (records.*1) (Some <$> records.*2))
  = inr (concat_str (imap (λ j r, option_section j r.2 r.1) records)).
Proof.
  unfold build_context. cbn [documents metadatas].
  rewrite (context_loop_sections _ records 0 "").
  - done.
  - intros j doc meta Hj. cbn [Nat.add].
    by rewrite !list_lookup_fmap, Hj.
Qed.

(** ** The guarded model call *)

Lemma generate_returns prompt env tr :
  generate prompt env tr
  = (inr (generation_text env prompt), tr ++ [EvGenerate prompt]).
Proof.
  unfold generate, try_except, generation_text, mbind, M_bind,
    generate_content.
  destruct (model_generate_content env prompt) as [e|[[e|text]]]; done.
Qed.

Lemma format_with_gemini_raises available_ingredients recipes_data
    constraints e env tr :
  build_prompt available_ingredients recipes_data constraints = inl e →
  format_with_gemini available_ingredients recipes_data constraints env tr
  = (inl e, tr).
Proof. intros H. unfold format_with_gemini. by rewrite H. Qed.

Lemma format_with_gemini_generates available_ingredients recipes_data
    constraints prompt env tr :
  build_prompt available_ingredients recipes_data constraints = inr prompt →
  format_with_gemini available_ingredients recipes_data constraints env tr
  = (inr (generation_text env prompt), tr ++ [EvGenerate prompt]).
Proof.
  intros H. unfold format_with_gemini. rewrite H.
  erewrite bind_ret by apply lift_inr. apply generate_returns.
Qed.

(** C2: whatever records were retrieved, the prompt sent to the model is a
    head followed by one section per record, in store order; the section of a
    record contains its [RecipeName] (or "Unknown Recipe" when the key is
    absent), its [TotalTimeInMins] and [Servings] (each "N/A" when absent)
    and its instruction text; the head contains the ingredients joined with
    ", " and the constraints string. *)
Theorem prompt_includes_records (available_ingredients : list string)
    (records : list (string * gmap string MetaValue)) (constraints : string) :
  let recipes_data := mkRecipesData (records.*1) (Some <$> records.*2) in
  ∃ (head : string) (sections : list string),
    build_prompt available_ingredients recipes_data (Some constraints)
    = inr (head +:+ concat_str sections)
    ∧ (∀ env tr,
         (format_with_gemini available_ingredients recipes_data
            (Some constraints) env tr).2
         = tr ++ [EvGenerate (head +:+ concat_str sections)])
    ∧ substring_of (join ", " available_ingredients) head
    ∧ substring_of constraints head
    ∧ length sections = length records
    ∧ ∀ i doc meta,
        records !! i = Some (doc, meta) →
        ∃ section,
          sections !! i = Some section
          ∧ shows section meta "RecipeName" "Unknown Recipe"
          ∧ shows section meta "TotalTimeInMins" "N/A"
          ∧ shows section meta "Servings" "N/A"
          ∧ substring_of doc section.
Proof.
  intros recipes_data.
  exists (prompt_head available_ingredients (Some constraints)),
    (imap (λ j r, option_section j r.2 r.1) records).
  assert (build_prompt available_ingredients recipes_data (Some constraints)
          = inr (prompt_head available_ingredients (Some constraints)
                 +:+ concat_str
                       (imap (λ j r, option_section j r.2 r.1) records)))
    as Hprompt.
  { unfold build_prompt, recipes_data.
    by rewrite build_context_records. }
  split; [exact Hprompt|].
  split.
  { intros env tr.
    by rewrite (format_with_gemini_generates _ _ _ _ env tr Hprompt). }
  destruct (prompt_head_shows available_ingredients (Some constraints))
    as [Hingredients Hconstraints].
  split; [exact Hingredients|].
  split; [exact Hconstraints|].
  split; [apply length_imap|].
  intros i doc meta Hi.
  exists (option_section i meta doc). split.
  - by rewrite list_lookup_imap, Hi.
  - apply option_section_shows.
Qed.

(** C4: the guarded model call always returns a string and never raises.
    When [generate_content] raises, or reading [.text] of its result does,
    the string is "Error generating content: " followed by the text of the
    exception; otherwise it is the text of the response.  So whenever a
    prompt was built, [format_with_gemini] returns as well. *)
Theorem generate_never_raises (prompt : string) (env : Env)
    (tr : list Event) :
  ∃ text,
    generate prompt env tr = (inr text, tr ++ [EvGenerate prompt])
    ∧ (∀ e, model_generate_content env prompt = inl e →
         text = "Error generating content: " +:+ exc_str e)
    ∧ (∀ response e,
         model_generate_content env prompt = inr response →
         response_text response = inl e →
         text = "Error generating content: " +:+ exc_str e)
    ∧ (∀ response answer,
         model_generate_content env prompt = inr response →
         response_text response = inr answer →
         text = answer)
    ∧ (∀ available_ingredients recipes_data constraints,
         build_prompt available_ingredients recipes_data constraints
         = inr prompt →
         (format_with_gemini available_ingredients recipes_data constraints
            env tr).1 = inr text).
Proof.
  exists (generation_text env prompt).
  split; [apply generate_returns|].
  unfold generation_text. repeat split.
  - by intros e ->.
  - by intros response e -> ->.
  - by intros response answer -> ->.
  - intros available_ingredients recipes_data constraints Hprompt.
    by rewrite (format_with_gemini_generates _ _ _ _ env tr Hprompt).
Qed.

(** ** The handler *)

Lemma recommend_body_store_raises request env tr e :
  store_answer request env = inl e →
  recommend_body request env tr = (inl e, tr ++ [the_query request]).
Proof.
  unfold store_answer, recommend_body, the_query. intros H.
  apply bind_raise. unfold query. by rewrite H.
Qed.

Lemma recommend_body_no_documents request env tr results :
  store_answer request env = inr results →
  retrieved_documents results = [] →
  recommend_body request env tr = (inr apology, tr ++ [the_query request]).
Proof.
  unfold store_answer, recommend_body, the_query, retrieved_documents.
  intros H Hdocs.
  erewrite bind_ret by (unfold query; by rewrite H).
  destruct (qr_documents results) as [[|first rest]|]; [done| |done].
  subst first. done.
Qed.

Lemma recommend_body_documents request env tr results :
  store_answer request env = inr results →
  retrieved_documents results ≠ [] →
  recommend_body request env tr
  = (metas ← lift (item0 (qr_metadatas results));
     final_answer ←
       format_with_gemini (ingredients request)
         (mkRecipesData (retrieved_documents results) metas)
         (constraints request);
     mret (success request final_answer)) env (tr ++ [the_query request]).
Proof.
  unfold store_answer, recommend_body, the_query, retrieved_documents.
  intros H Hdocs.
  erewrite bind_ret by (unfold query; by rewrite H).
  destruct (qr_documents results) as [[|[|doc docs] rest]|]; done.
Qed.

Lemma recommend_body_indexing_raises request env tr results e :
  store_answer request env = inr results →
  retrieved_documents results ≠ [] →
  item0 (qr_metadatas results) = inl e →
  recommend_body request env tr = (inl e, tr ++ [the_query request]).
Proof.
  intros H Hdocs Hmetas. rewrite (recommend_body_documents _ _ _ _ H Hdocs).
  by rewrite Hmetas.
Qed.

Lemma recommend_body_prompt_raises request env tr results metas e :
  store_answer request env = inr results →
  retrieved_documents results ≠ [] →
  item0 (qr_metadatas results) = inr metas →
  build_prompt (ingredients request)
    (mkRecipesData (retrieved_documents results) metas) (constraints request)
  = inl e →
  recommend_body request env tr = (inl e, tr ++ [the_query request]).
Proof.
  intros H Hdocs Hmetas Hprompt.
  rewrite (recommend_body_documents _ _ _ _ H Hdocs), Hmetas.
  erewrite bind_ret by apply lift_inr.
  apply bind_raise. by apply format_with_gemini_raises.
Qed.

Lemma recommend_body_success request env tr results metas prompt :
  store_answer request env = inr results →
  retrieved_documents results ≠ [] →
  item0 (qr_metadatas results) = inr metas →
  build_prompt (ingredients request)
    (mkRecipesData (retrieved_documents results) metas) (constraints request)
  = inr prompt →
  recommend_body request env tr
  = (inr (success request (generation_text env prompt)),
     tr ++ [the_query request; EvGenerate prompt]).
Proof.
  intros H Hdocs Hmetas Hprompt.
  rewrite (recommend_body_documents _ _ _ _ H Hdocs), Hmetas.
  erewrite bind_ret by apply lift_inr.
  erewrite bind_ret by (by apply format_with_gemini_generates).
  unfold mret, M_ret. by rewrite <-app_assoc.
Qed.

Lemma recommend_body_run request env tr :
  Run request env tr (recommend_body request env tr).
Proof.
  destruct (store_answer request env) as [e|results] eqn:H.
  { rewrite (recommend_body_store_raises _ _ _ _ H). by constructor. }
  destruct (decide (retrieved_documents results = [])) as [Hdocs|Hdocs].
  { rewrite (recommend_body_no_documents _ _ _ _ H Hdocs).
    by econstructor 2. }
  destruct (item0 (qr_metadatas results)) as [e|metas] eqn:Hmetas.
  { rewrite (recommend_body_indexing_raises _ _ _ _ _ H Hdocs Hmetas).
    by econstructor 3. }
  destruct (build_prompt (ingredients request)
              (mkRecipesData (retrieved_documents results) metas)
              (constraints request)) as [e|prompt] eqn:Hprompt.
  - rewrite (recommend_body_prompt_raises _ _ _ _ _ _ H Hdocs Hmetas Hprompt).
    by econstructor 4.
  - rewrite (recommend_body_success _ _ _ _ _ _ H Hdocs Hmetas Hprompt).
    by econstructor 5.
Qed.

(** The handler's outcome, from the outcome of the body of its [try]. *)
Lemma recommend_recipes_returns request env tr d tr' :
  recommend_body request env tr = (inr d, tr') →
  recommend_recipes request env tr = (inr d, tr').
Proof. intros H. unfold recommend_recipes. by rewrite H. Qed.

Lemma recommend_recipes_raises request env tr e tr' :
  recommend_body request env tr = (inl e, tr') →
  recommend_recipes request env tr
  = (inl (mkHTTPException 500 ("Internal Server Error: " +:+ exc_str e)), tr').
Proof. intros H. unfold recommend_recipes. by rewrite H. Qed.

Lemma as_str_list_inv items : ∀ strings,
  as_str_list items = Some strings → JStr <$> strings = items.
Proof.
  induction items as [|item items IH]; intros strings H.
  - by simplify_eq/=.
  - destruct item; simplify_eq/=.
    destruct (as_str_list items) as [rest|]; simplify_eq/=.
    by rewrite (IH rest).
Qed.

Lemma validate_inr body request :
  validate body = inr request →
  body_field "ingredients" body = Some (JArr (JStr <$> ingredients request))
  ∧ json_of_optional (constraints request)
    = default (JStr "None") (body_field "constraints" body).
Proof.
  unfold validate, body_field. intros H.
  destruct body as [| | | | |fields]; try done.
  destruct (dict_lookup "ingredients" fields) as [[| | | |items|]|]; try done.
  destruct (as_str_list items) as [strings|] eqn:Hitems; try done.
  apply as_str_list_inv in Hitems as <-.
  destruct (dict_lookup "constraints" fields) as [[| | |s| |]|];
    by simplify_eq/=.
Qed.

Lemma post_recommend_valid body request env tr :
  validate body = inr request →
  post_recommend body env tr
  = match recommend_recipes request env tr with
    | (inr d, tr') => (JSONResponse d, tr')
    | (inl e, tr') => (ErrorResponse (status_code e) (detail e), tr')
    end.
Proof. intros H. unfold post_recommend. by rewrite H. Qed.

(** C1: when the store returns no document for the query, the handler
    returns the fixed apology object, which has the key [recommendation]
    only; the one call made is the store query, so nothing is sent to the
    model.  The endpoint answers with that object. *)
Theorem no_documents_apology (request : RecipeRequest) (env : Env)
    (tr : list Event) (results : QueryResult) :
  store_answer request env = inr results →
  retrieved_documents results = [] →
  recommend_recipes request env tr
  = (inr [("recommendation",
           JStr "I'm sorry, I couldn't find any recipes that match those ingredients in my current database.")],
     tr ++ [the_query request])
  ∧ prompts_sent (recommend_recipes request env tr).2 = prompts_sent tr
  ∧ (∀ body,
       validate body = inr request →
       (post_recommend body env tr).1 = JSONResponse apology)
  ∧ dict_lookup "status" apology = None
  ∧ dict_lookup "ingredients_received" apology = None
  ∧ dict_lookup "constraints_applied" apology = None.
Proof.
  intros H Hdocs.
  pose proof (recommend_body_no_documents request env tr results H Hdocs)
    as Hbody.
  apply recommend_recipes_returns in Hbody.
  split; [exact Hbody|].
  split.
  { rewrite Hbody. cbn [snd]. unfold prompts_sent.
    rewrite omap_app. cbn. by rewrite app_nil_r. }
  split; [|done].
  intros body Hvalid. by rewrite (post_recommend_valid _ _ _ _ Hvalid), Hbody.
Qed.

(** C7: a run of the handler makes one call to the store: the query texts
    are the single string of the ingredients joined with ", ", the result
    count is 3, and documents and metadatas are requested. *)
Theorem store_queried_once (request : RecipeRequest) (env : Env)
    (tr : list Event) :
  store_queries (recommend_recipes request env tr).2
  = store_queries tr
    ++ [([join ", " (ingredients request)], 3, ["documents"; "metadatas"])].
Proof.
  unfold recommend_recipes.
  destruct (recommend_body_run request env tr);
    cbn [snd]; unfold store_queries; by rewrite omap_app.
Qed.

(** C3: for a request with at least one ingredient, if the store returns at
    least one document and the handler returns rather than raises, the
    response has status 200, [status] is "success", [ingredients_received]
    is the list of the request body and [constraints_applied] is the
    constraints of the body, or the string "None" when the body has no such
    key. *)
Theorem success_echoes_request (body : json) (request : RecipeRequest)
    (env : Env) (tr tr' : list Event) (results : QueryResult) (d : dict) :
  validate body = inr request →
  ingredients request ≠ [] →
  store_answer request env = inr results →
  retrieved_documents results ≠ [] →
  recommend_recipes request env tr = (inr d, tr') →
  post_recommend body env tr = (JSONResponse d, tr')
  ∧ response_status (JSONResponse d) = 200
  ∧ dict_lookup "status" d = Some (JStr "success")
  ∧ dict_lookup "ingredients_received" d
    = Some (JArr (JStr <$> ingredients request))
  ∧ dict_lookup "ingredients_received" d = body_field "ingredients" body
  ∧ dict_lookup "constraints_applied" d
    = Some (default (JStr "None") (body_field "constraints" body)).
Proof.
  intros Hvalid _ H Hdocs Hret.
  destruct (validate_inr _ _ Hvalid) as [Hingredients Hconstraints].
  split; [by rewrite (post_recommend_valid _ _ _ _ Hvalid), Hret|].
  split; [done|].
  revert Hret. unfold recommend_recipes.
  destruct (recommend_body_run request env tr) as
    [e _|results' H' Hnone|results' e _ _ _|results' metas e _ _ _ _
    |results' metas prompt _ _ _ _]; intros Hret; simplify_eq/=.
  { rewrite H in H'. by simplify_eq. }
  by rewrite Hingredients, <-Hconstraints.
Qed.

(** ** Exceptions at the handler boundary *)

(** C5, as stated, fails: an exception raised by the model call does not
    reach the handler, and the request is answered with a dict. *)
Lemma handler_500_for_every_exception_fails :
  ¬ (∀ request env tr e stage,
       raised_in request env e stage →
       (recommend_recipes request env tr).1
       = inl (mkHTTPException 500
                ("Internal Server Error: " +:+ exc_str e))).
Proof.
  intros Hclaim.
  specialize (Hclaim eggs_flour
                (mkEnv (store_of ["Mix and fry."] [Some pancakes]) model_down)
                []
                (mkException "ResourceExhausted" "429 quota exceeded")
                Generation).
  assert ((recommend_recipes eggs_flour
             (mkEnv (store_of ["Mix and fry."] [Some pancakes]) model_down)
             []).1
          = inr (success eggs_flour
                   "Error generating content: 429 quota exceeded"))
    as Hrun by (vm_compute; reflexivity).
  rewrite Hrun in Hclaim. discriminate Hclaim.
  eapply raised_generate;
    [reflexivity | discriminate | reflexivity | reflexivity | reflexivity].
Qed.

(** C5, amended: an exception raised by the store query, by indexing its
    result or by prompt construction becomes an [HTTPException] with status
    500 and detail "Internal Server Error: " followed by its text; an
    exception raised by the model call makes the handler return the success
    dict whose recommendation is "Error generating content: " followed by its
    text; and whatever the handler raises is such a 500. *)
Theorem handler_boundary (request : RecipeRequest) (env : Env)
    (tr : list Event) :
  (∀ e stage,
     raised_in request env e stage → stage ≠ Generation →
     (recommend_recipes request env tr).1
     = inl (mkHTTPException 500 ("Internal Server Error: " +:+ exc_str e)))
  ∧ (∀ e,
       raised_in request env e Generation →
       (recommend_recipes request env tr).1
       = inr (success request ("Error generating content: " +:+ exc_str e)))
  ∧ (∀ h,
       (recommend_recipes request env tr).1 = inl h →
       ∃ e stage,
         raised_in request env e stage ∧ stage ≠ Generation
         ∧ h = mkHTTPException 500 ("Internal Server Error: " +:+ exc_str e)).
Proof.
  repeat split.
  - intros e stage Hraised Hstage.
    destruct Hraised as [H|results H Hdocs Hmetas
                        |results metas H Hdocs Hmetas Hprompt| |];
      [| | |done|done].
    + by rewrite (recommend_recipes_raises _ _ _ _ _
                    (recommend_body_store_raises _ _ tr _ H)).
    + by rewrite (recommend_recipes_raises _ _ _ _ _
                    (recommend_body_indexing_raises _ _ tr _ _ H Hdocs Hmetas)).
    + by rewrite (recommend_recipes_raises _ _ _ _ _
                    (recommend_body_prompt_raises _ _ tr _ _ _
                       H Hdocs Hmetas Hprompt)).
  - intros e Hraised.
    inversion Hraised as
      [| | |results metas prompt H Hdocs Hmetas Hprompt Hmodel
       |results metas prompt response H Hdocs Hmetas Hprompt Hmodel Htext].
    + rewrite (recommend_recipes_returns _ _ _ _ _
                 (recommend_body_success _ _ tr _ _ _ H Hdocs Hmetas Hprompt)).
      unfold generation_text. by rewrite Hmodel.
    + rewrite (recommend_recipes_returns _ _ _ _ _
                 (recommend_body_success _ _ tr _ _ _ H Hdocs Hmetas Hprompt)).
      unfold generation_text. by rewrite Hmodel, Htext.
  - intros h. unfold recommend_recipes.
    destruct (recommend_body_run request env tr) as
      [e H| |results e H Hdocs Hmetas|results metas e H Hdocs Hmetas Hprompt|];
      intros Hh; simplify_eq/=.
    + exists e, StoreQuery. split; [by constructor|done].
    + exists e, ResultIndexing. split; [by econstructor|done].
    + exists e, PromptBuilding. split; [by econstructor|done].
Qed.

(** ** Prompt construction outside the guarded region *)

Lemma context_loop_short metas : ∀ docs i context_text,
  i ≤ length metas → length metas < i + length docs →
  context_loop metas i docs context_text = inl IndexError_list
  ∨ context_loop metas i docs context_text = inl AttributeError_get.
Proof.
  induction docs as [|doc docs IH]; intros i context_text Hi Hlen.
  - simpl in Hlen. lia.
  - cbn [context_loop].
    destruct (metas !! i) as [[meta|]|] eqn:Hmeta; [|by right|by left].
    apply lookup_lt_Some in Hmeta.
    apply IH; [lia|]. simpl in Hlen. lia.
Qed.

(** C10: prompt construction is not covered by the [try] of the generation
    function.  When the store returns fewer metadata mappings than
    documents, [format_with_gemini] raises ([IndexError], or
    [AttributeError] if a mapping before the missing one is [None]) before
    any call to the model, and the request ends as a 500 whose detail is
    "Internal Server Error: " followed by the text of that exception. *)
Theorem prompt_error_is_500 (request : RecipeRequest) (env : Env)
    (tr : list Event) (results : QueryResult)
    (metas : list (option (gmap string MetaValue))) :
  store_answer request env = inr results →
  item0 (qr_metadatas results) = inr metas →
  length metas < length (retrieved_documents results) →
  ∃ e,
    (e = IndexError_list ∨ e = AttributeError_get)
    ∧ (∀ tr0,
         format_with_gemini (ingredients request)
           (mkRecipesData (retrieved_documents results) metas)
           (constraints request) env tr0 = (inl e, tr0))
    ∧ recommend_recipes request env tr
      = (inl (mkHTTPException 500 ("Internal Server Error: " +:+ exc_str e)),
         tr ++ [the_query request])
    ∧ prompts_sent (recommend_recipes request env tr).2 = prompts_sent tr
    ∧ ∀ body,
        validate body = inr request →
        (post_recommend body env tr).1
        = ErrorResponse 500 ("Internal Server Error: " +:+ exc_str e).
Proof.
  intros H Hmetas Hlen.
  assert (retrieved_documents results ≠ []) as Hdocs.
  { intros Hnil. rewrite Hnil in Hlen. simpl in Hlen. lia. }
  assert (∃ e, (e = IndexError_list ∨ e = AttributeError_get)
               ∧ build_prompt (ingredients request)
                   (mkRecipesData (retrieved_documents results) metas)
                   (constraints request) = inl e) as (e & He & Hprompt).
  { unfold build_prompt, build_context. cbn [documents metadatas].
    destruct (context_loop_short metas (retrieved_documents results) 0 "")
      as [->| ->]; [lia|by rewrite Nat.add_0_l|..]; eauto. }
  pose proof (recommend_recipes_raises _ _ _ _ _
                (recommend_body_prompt_raises _ _ tr _ _ _
                   H Hdocs Hmetas Hprompt)) as Hrun.
  exists e. split; [exact He|].
  split; [intros tr0; by apply format_with_gemini_raises|].
  split; [exact Hrun|].
  split.
  { rewrite Hrun. cbn [snd]. unfold prompts_sent.
    rewrite omap_app. cbn. by rewrite app_nil_r. }
  intros body Hvalid. by rewrite (post_recommend_valid _ _ _ _ Hvalid), Hrun.
Qed.

(** ** Empty ingredient lists *)

(** C9: a body whose [ingredients] is the empty list passes validation,
    whatever its [constraints]; the endpoint does not answer 422 but queries
    the store with the empty string, and then answers with the apology when
    no document comes back and with the success dict when documents come
    back and a prompt is built from them. *)
Theorem empty_ingredients_accepted (c : option (option string)) (env : Env)
    (tr : list Event) :
  let body := JObj (("ingredients", JArr []) :: constraints_item c) in
  let request := mkRecipeRequest [] (default (Some "None") c) in
  validate body = inr request
  ∧ (∀ error, (post_recommend body env tr).1 ≠ UnprocessableEntity error)
  ∧ (∃ sent,
       (post_recommend body env tr).2
       = tr ++ EvQuery [""] 3 ["documents"; "metadatas"] :: sent)
  ∧ (∀ results,
       collection_query env [""] 3 ["documents"; "metadatas"] = inr results →
       retrieved_documents results = [] →
       (post_recommend body env tr).1 = JSONResponse apology)
  ∧ (∀ results metas prompt,
       collection_query env [""] 3 ["documents"; "metadatas"] = inr results →
       retrieved_documents results ≠ [] →
       item0 (qr_metadatas results) = inr metas →
       build_prompt [] (mkRecipesData (retrieved_documents results) metas)
         (constraints request) = inr prompt →
       (post_recommend body env tr).1
       = JSONResponse (success request (generation_text env prompt))).
Proof.
  intros body request.
  assert (validate body = inr request) as Hvalid.
  { unfold body, request. by destruct c as [[s|]|]. }
  split; [exact Hvalid|].
  rewrite (post_recommend_valid _ _ _ _ Hvalid).
  unfold recommend_recipes.
  repeat split.
  - intros error. by destruct (recommend_body request env tr) as [[e|d] tr'].
  - destruct (recommend_body_run request env tr); cbn [snd];
      eexists; reflexivity.
  - intros results H Hdocs.
    by rewrite (recommend_body_no_documents request env tr results H Hdocs).
  - intros results metas prompt H Hdocs Hmetas Hprompt.
    by rewrite (recommend_body_success request env tr results metas prompt
                  H Hdocs Hmetas Hprompt).
Qed.

(** ** Start-up *)

(** C8: when neither the process environment nor the [.env] file sets
    [GEMINI_API_KEY], running the module raises a [ValueError] that names the
    variable, before any client is configured, and no request is served. *)
Theorem missing_credential_stops_startup (environ dotenv : gmap string string) :
  environ !! "GEMINI_API_KEY" = None →
  dotenv !! "GEMINI_API_KEY" = None →
  module_init environ dotenv
  = (Some (mkException "ValueError"
             "GEMINI_API_KEY not found. Please set it in your environment or .env file."),
     [])
  ∧ ∀ body env, serve environ dotenv body env = None.
Proof.
  intros Henviron Hdotenv.
  assert (load_dotenv environ dotenv !! "GEMINI_API_KEY" = None) as Hkey.
  { unfold load_dotenv. apply lookup_union_None. by split. }
  assert (module_init environ dotenv
          = (Some (mkException "ValueError"
                     "GEMINI_API_KEY not found. Please set it in your environment or .env file."),
             [])) as Hinit.
  { unfold module_init. by rewrite Hkey. }
  split; [exact Hinit|].
  intros body env. unfold serve. by rewrite Hinit.
Qed.

(** With a non-empty key the module runs to its end and requests are
    served. *)
Lemma credential_present_starts (environ dotenv : gmap string string) c key :
  load_dotenv environ dotenv !! "GEMINI_API_KEY" = Some (String c key) →
  (module_init environ dotenv).1 = None
  ∧ ∀ body env,
      serve environ dotenv body env = Some (post_recommend body env []).
Proof.
  intros Hkey. unfold serve, module_init. by rewrite Hkey.
Qed.

(** ** Sample runs *)

Example prompt_of_two_records :
  build_prompt ["eggs"; "flour"]
    (mkRecipesData ["Mix and fry."; "Boil."] [Some pancakes; Some ∅])
    (Some "None")
  = inr "You are a friendly, expert kitchen assistant. A home cook has: eggs, flour.
IMPORTANT DIETARY/EQUIPMENT CONSTRAINTS: None

Based on their ingredients AND the constraints above, suggest the 3 best matches from the provided database. If a recipe uses an ingredient they are allergic to or requires equipment they don't have, you MUST modify the steps to accommodate them or explain why a certain substitution was made.

Don't mention 'searching a database'—just offer your best culinary advice based on these recipes:

--- OPTION 1: Pancakes ---
Cooking Time: 20 mins | Servings: N/A
Instructions: Mix and fry.

--- OPTION 2: Unknown Recipe ---
Cooking Time: N/A mins | Servings: N/A
Instructions: Boil.
".
Proof. vm_compute. reflexivity. Qed.

Example run_with_model_down :
  (post_recommend eggs_flour_body
     (mkEnv (store_of ["Mix and fry."] [Some pancakes]) model_down) []).1
  = JSONResponse
      [("status", JStr "success");
       ("ingredients_received", JArr [JStr "eggs"; JStr "flour"]);
       ("constraints_applied", JStr "None");
       ("recommendation",
        JStr "Error generating content: 429 quota exceeded")].
Proof. vm_compute. reflexivity. Qed.

Example run_with_short_metadatas :
  post_recommend eggs_flour_body
    (mkEnv (store_of ["Mix and fry."; "Boil."] [Some pancakes]) model_down) []
  = (ErrorResponse 500 "Internal Server Error: list index out of range",
     [EvQuery ["eggs, flour"] 3 ["documents"; "metadatas"]]).
Proof. vm_compute. reflexivity. Qed.

Example run_with_missing_mapping :
  post_recommend eggs_flour_body
    (mkEnv (store_of ["Mix and fry."] [None]) model_up) []
  = (ErrorResponse 500
       "Internal Server Error: 'NoneType' object has no attribute 'get'",
     [EvQuery ["eggs, flour"] 3 ["documents"; "metadatas"]]).
Proof. vm_compute. reflexivity. Qed.

Example run_with_store_down :
  post_recommend eggs_flour_body
    (mkEnv (λ _ _ _, inl (mkException "RuntimeError" "database is locked"))
       model_up) []
  = (ErrorResponse 500 "Internal Server Error: database is locked",
     [EvQuery ["eggs, flour"] 3 ["documents"; "metadatas"]]).
Proof. vm_compute. reflexivity. Qed.

Example run_with_null_constraints :
  (post_recommend
     (JObj [("ingredients", JArr [JStr "chicken"]); ("constraints", JNull)])
     (mkEnv (store_of ["Mix and fry."] [Some pancakes]) model_up) []).1
  = JSONResponse
      [("status", JStr "success");
       ("ingredients_received", JArr [JStr "chicken"]);
       ("constraints_applied", JNull);
       ("recommendation", JStr "Try the pancakes.")].
Proof. vm_compute. reflexivity. Qed.

Example validation_rejects_missing_ingredients :
  (post_recommend (JObj [("constraints", JStr "no oven")])
     (mkEnv (store_of ["Mix and fry."] [Some pancakes]) model_up) [])
  = (UnprocessableEntity (FieldRequired "ingredients"), []).
Proof. vm_compute. reflexivity. Qed.

Example startup_with_dotenv_key :
  (module_init ∅ {[ "GEMINI_API_KEY" := "secret" ]}).2
  = [EvConfigure "secret"; EvGenerativeModel "gemini-1.5-flash";
     EvPersistentClient "recipe_db"; EvGetOrCreateCollection "recipes";
     EvFastAPI "Chef Gemini RAG API"].
Proof. vm_compute. reflexivity. Qed.

Example startup_with_empty_key :
  (module_init {[ "GEMINI_API_KEY" := "" ]} ∅).1
  = Some (mkException "ValueError"
            "GEMINI_API_KEY not found. Please set it in your environment or .env file.").
Proof. vm_compute. reflexivity. Qed.

(** ** The theorems at sample inputs *)

Lemma no_documents_apology_witness :
  let request := mkRecipeRequest ["durian"; "unobtainium"] (Some "None") in
  let env := mkEnv (store_of [] []) model_up in
  store_answer request env = inr (mkQueryResult (Some [[]]) (Some [[]]))
  ∧ retrieved_documents (mkQueryResult (Some [[]]) (Some [[]])) = []
  ∧ recommend_recipes request env []
    = (inr [("recommendation",
             JStr "I'm sorry, I couldn't find any recipes that match those ingredients in my current database.")],
       [EvQuery ["durian, unobtainium"] 3 ["documents"; "metadatas"]]).
Proof.
  intros request env.
  split; [reflexivity|]. split; [reflexivity|].
  exact (proj1 (no_documents_apology request env []
                  (mkQueryResult (Some [[]]) (Some [[]])) eq_refl eq_refl)).
Defined.

Lemma success_echoes_request_witness :
  let env := mkEnv (store_of ["Mix and fry."] [Some pancakes]) model_up in
  validate eggs_flour_body = inr eggs_flour
  ∧ ingredients eggs_flour ≠ []
  ∧ (recommend_recipes eggs_flour env []).1
    = inr (success eggs_flour "Try the pancakes.")
  ∧ post_recommend eggs_flour_body env []
    = (JSONResponse (success eggs_flour "Try the pancakes."),
       (recommend_recipes eggs_flour env []).2).
Proof.
  intros env.
  split; [reflexivity|]. split; [discriminate|].
  split; [vm_compute; reflexivity|].
  refine (proj1 (success_echoes_request eggs_flour_body eggs_flour env []
                   (recommend_recipes eggs_flour env []).2
                   (mkQueryResult (Some [["Mix and fry."]])
                      (Some [[Some pancakes]]))
                   (success eggs_flour "Try the pancakes.")
                   eq_refl _ eq_refl _ _)).
  - discriminate.
  - discriminate.
  - vm_compute. reflexivity.
Defined.

Lemma prompt_error_is_500_witness :
  let env :=
    mkEnv (store_of ["Mix and fry."; "Boil."] [Some pancakes]) model_up in
  length [Some pancakes] < length ["Mix and fry."; "Boil."]
  ∧ ∃ e,
      (e = IndexError_list ∨ e = AttributeError_get)
      ∧ recommend_recipes eggs_flour env []
        = (inl (mkHTTPException 500
                  ("Internal Server Error: " +:+ exc_str e)),
           [the_query eggs_flour]).
Proof.
  intros env. split; [simpl; lia|].
  destruct (prompt_error_is_500 eggs_flour env []
              (mkQueryResult (Some [["Mix and fry."; "Boil."]])
                 (Some [[Some pancakes]]))
              [Some pancakes] eq_refl eq_refl)
    as (e & He & _ & Hrun & _).
  - simpl. lia.
  - exists e. split; [exact He | exact Hrun].
Defined.

Lemma missing_credential_stops_startup_witness :
  let environ : gmap string string := {[ "PATH" := "/usr/bin" ]} in
  environ !! "GEMINI_API_KEY" = None
  ∧ (module_init environ ∅).1
    = Some (mkException "ValueError"
              "GEMINI_API_KEY not found. Please set it in your environment or .env file.")
  ∧ serve environ ∅ eggs_flour_body
      (mkEnv (store_of ["Mix and fry."] [Some pancakes]) model_up)
    = None.
Proof.
  intros environ.
  assert (environ !! "GEMINI_API_KEY" = None) as Henviron
    by (vm_compute; reflexivity).
  split; [exact Henviron|].
  destruct (missing_credential_stops_startup environ ∅ Henviron
              (lookup_empty _))
    as [Hinit Hserve].
  split; [by rewrite Hinit | apply Hserve].
Defined.

(** * Further properties *)

(** ** The loop over the documents *)

Lemma context_loop_app metas : ∀ docs1 docs2 i context_text,
  context_loop metas i (docs1 ++ docs2) context_text
  = match context_loop metas i docs1 context_text with
    | inl e => inl e
    | inr context_text' =>
        context_loop metas (i + length docs1) docs2 context_text'
    end.
Proof.
  induction docs1 as [|doc docs1 IH]; intros docs2 i context_text.
  - cbn [app context_loop length]. by rewrite Nat.add_0_r.
  - cbn [app context_loop length].
    destruct (metas !! i) as [[meta|]|]; [|done..].
    rewrite IH. by rewrite Nat.add_succ_r.
Qed.

Lemma context_loop_extends metas : ∀ docs i context_text result,
  context_loop metas i docs context_text = inr result →
  ∃ added, result = context_text +:+ added.
Proof.
  induction docs as [|doc docs IH]; intros i context_text result H.
  - exists "". cbn in H. simplify_eq. by rewrite str_app_nil_r.
  - cbn [context_loop] in H.
    destruct (metas !! i) as [[meta|]|]; [|done..].
    apply IH in H as [added ->].
    rewrite add_option_section, str_app_assoc. eauto.
Qed.

Lemma context_loop_same metas1 metas2 : ∀ docs i context_text,
  (∀ j, j < length docs →
     same_for_prompt (metas1 !! (i + j)) (metas2 !! (i + j))) →
  context_loop metas1 i docs context_text
  = context_loop metas2 i docs context_text.
Proof.
  induction docs as [|doc docs IH]; intros i context_text Hsame; [done|].
  cbn [context_loop].
  pose proof (Hsame 0 ltac:(simpl; lia)) as H0. rewrite Nat.add_0_r in H0.
  assert (∀ j, j < length docs →
            same_for_prompt (metas1 !! (S i + j)) (metas2 !! (S i + j)))
    as Hrest.
  { intros j Hj. rewrite Nat.add_succ_l, <-Nat.add_succ_r.
    apply Hsame. simpl. lia. }
  destruct (metas1 !! i) as [[m1|]|], (metas2 !! i) as [[m2|]|];
    try done.
  destruct H0 as (Hname & Htime & Hservings).
  rewrite (IH (S i) _ Hrest). f_equal.
  unfold add_option, dict_get. by rewrite Hname, Htime, Hservings.
Qed.

Lemma same_for_prompt_refl a : same_for_prompt a a.
Proof. by destruct a as [[m|]|]. Qed.

Lemma context_loop_returns_iff metas : ∀ docs i context_text,
  (∃ result, context_loop metas i docs context_text = inr result)
  ↔ ∀ j, j < length docs → ∃ meta, metas !! (i + j) = Some (Some meta).
Proof.
  induction docs as [|doc docs IH]; intros i context_text.
  - split; [intros _ j Hj; simpl in Hj; lia | intros _; cbn; eauto].
  - cbn [context_loop length]. split.
    + intros [result H] j Hj.
      destruct (metas !! i) as [[meta|]|] eqn:Hi; [|done..].
      destruct j as [|j]; [rewrite Nat.add_0_r; eauto|].
      rewrite Nat.add_succ_r, <-Nat.add_succ_l.
      eapply IH; [eauto | lia].
    + intros Hall.
      destruct (Hall 0 ltac:(lia)) as [meta Hmeta].
      rewrite Nat.add_0_r in Hmeta. rewrite Hmeta.
      apply IH. intros j Hj.
      rewrite Nat.add_succ_l, <-Nat.add_succ_r. apply Hall. lia.
Qed.

Lemma context_loop_first_failure metas : ∀ docs k i context_text,
  k < length docs →
  (∀ j, j < k → ∃ meta, metas !! (i + j) = Some (Some meta)) →
  context_loop metas i docs context_text
  = match metas !! (i + k) with
    | None => inl IndexError_list
    | Some None => inl AttributeError_get
    | Some (Some _) => context_loop metas i docs context_text
    end.
Proof.
  induction docs as [|doc docs IH]; intros k i context_text Hk Hbefore.
  - simpl in Hk. lia.
  - destruct k as [|k].
    + rewrite Nat.add_0_r. cbn [context_loop].
      by destruct (metas !! i) as [[meta|]|].
    + destruct (Hbefore 0 ltac:(lia)) as [meta Hmeta].
      rewrite Nat.add_0_r in Hmeta.
      destruct (metas !! (i + S k)) as [[meta'|]|] eqn:Hfail; [done|..];
        cbn [context_loop]; rewrite Hmeta;
        rewrite (IH k (S i)), Nat.add_succ_l, <-Nat.add_succ_r, Hfail;
        try done; try (simpl in Hk; lia);
        intros j Hj; rewrite Nat.add_succ_l, <-Nat.add_succ_r;
        apply Hbefore; lia.
Qed.

Lemma build_prompt_inr available_ingredients recipes_data constraints prompt :
  build_prompt available_ingredients recipes_data constraints = inr prompt →
  ∃ context_text,
    build_context recipes_data = inr context_text
    ∧ prompt = prompt_head available_ingredients constraints +:+ context_text.
Proof.
  unfold build_prompt, make_prompt.
  destruct (build_context recipes_data) as [e|context_text]; [done|].
  intros ?; simplify_eq. eauto.
Qed.

(** The prompt uses the ingredients through their joined text and the
    constraints through their rendering. *)
Lemma build_prompt_rendered ingredients1 ingredients2 recipes_data c1 c2 :
  join ", " ingredients1 = join ", " ingredients2 →
  str_optional c1 = str_optional c2 →
  build_prompt ingredients1 recipes_data c1
  = build_prompt ingredients2 recipes_data c2.
Proof.
  intros Hjoin Hc. unfold build_prompt, make_prompt, prompt_head.
  by rewrite Hjoin, Hc.
Qed.

(** ** Prompt construction *)

(** A prompt is built exactly when every document has a mapping at its own
    index of the metadata list. *)
Theorem build_prompt_returns_iff (available_ingredients : list string)
    (recipes_data : RecipesData) (constraints : option string) :
  (∃ prompt,
     build_prompt available_ingredients recipes_data constraints = inr prompt)
  ↔ ∀ j, j < length (documents recipes_data) →
         ∃ meta, metadatas recipes_data !! j = Some (Some meta).
Proof.
  rewrite <-(context_loop_returns_iff (metadatas recipes_data)
               (documents recipes_data) 0 "").
  unfold build_prompt, build_context. split.
  - intros [prompt H].
    destruct (context_loop _ 0 _ "") as [e|context_text]; [done|eauto].
  - intros [context_text ->]. eauto.
Qed.

(** The exception of prompt construction is decided by the first document
    without a mapping: [IndexError] when the metadata list ends before it,
    [AttributeError] when its entry is [None]. *)
Theorem build_prompt_first_failure (available_ingredients : list string)
    (recipes_data : RecipesData) (constraints : option string) (k : nat) :
  k < length (documents recipes_data) →
  (∀ j, j < k → ∃ meta, metadatas recipes_data !! j = Some (Some meta)) →
  (metadatas recipes_data !! k = None →
   build_prompt available_ingredients recipes_data constraints
   = inl IndexError_list)
  ∧ (metadatas recipes_data !! k = Some None →
     build_prompt available_ingredients recipes_data constraints
     = inl AttributeError_get).
Proof.
  intros Hk Hbefore. unfold build_prompt, build_context.
  rewrite (context_loop_first_failure _ _ k 0 "" Hk Hbefore).
  cbn [Nat.add]. by split; intros ->.
Qed.

(** Metadata entries beyond the number of documents are never read. *)
Theorem build_prompt_ignores_extra_metadatas
    (available_ingredients : list string) (docs : list string)
    (metas : list (option (gmap string MetaValue)))
    (constraints : option string) :
  build_prompt available_ingredients (mkRecipesData docs metas) constraints
  = build_prompt available_ingredients
      (mkRecipesData docs (take (length docs) metas)) constraints.
Proof.
  unfold build_prompt, build_context. cbn [documents metadatas].
  rewrite (context_loop_same metas (take (length docs) metas) docs 0 "");
    [done|].
  intros j Hj. cbn [Nat.add]. rewrite lookup_take_lt by done.
  apply same_for_prompt_refl.
Qed.

(** Retrieving further documents only appends to the prompt: if the prompt
    for a list of documents is built, the prompt for a longer list starts
    with it; if it raises, the longer list raises the same exception. *)
Theorem build_prompt_prefix (available_ingredients : list string)
    (docs more : list string) (metas : list (option (gmap string MetaValue)))
    (constraints : option string) :
  (∀ e,
     build_prompt available_ingredients (mkRecipesData docs metas) constraints
     = inl e →
     build_prompt available_ingredients (mkRecipesData (docs ++ more) metas)
       constraints = inl e)
  ∧ (∀ longer,
       build_prompt available_ingredients
         (mkRecipesData (docs ++ more) metas) constraints = inr longer →
       ∃ prompt added,
         build_prompt available_ingredients (mkRecipesData docs metas)
           constraints = inr prompt
         ∧ longer = prompt +:+ added).
Proof.
  unfold build_prompt, build_context, make_prompt.
  cbn [documents metadatas]. rewrite context_loop_app.
  destruct (context_loop metas 0 docs "") as [e|context_text]; split.
  - done.
  - done.
  - done.
  - intros longer H.
    destruct (context_loop metas _ more context_text) as [e|result] eqn:Hmore;
      simplify_eq.
    apply context_loop_extends in Hmore as [added ->].
    exists (prompt_head available_ingredients constraints +:+ context_text),
      added.
    by rewrite str_app_assoc.
Qed.

(** Of a metadata mapping the prompt reads the keys [RecipeName],
    [TotalTimeInMins] and [Servings] only: two metadata lists of the same
    length whose mappings agree on these keys give the same outcome. *)
Theorem build_prompt_reads_three_keys (available_ingredients : list string)
    (docs : list string) (metas1 metas2 : list (option (gmap string MetaValue)))
    (constraints : option string) :
  (∀ j, same_for_prompt (metas1 !! j) (metas2 !! j)) →
  build_prompt available_ingredients (mkRecipesData docs metas1) constraints
  = build_prompt available_ingredients (mkRecipesData docs metas2) constraints.
Proof.
  intros Hsame. unfold build_prompt, build_context.
  cbn [documents metadatas].
  rewrite (context_loop_same metas1 metas2 docs 0 ""); [done|].
  intros j _. apply Hsame.
Qed.

(** ** What the handler sends out *)

Lemma join_separator sep a b rest :
  join sep ((a +:+ sep +:+ b) :: rest) = join sep (a :: b :: rest).
Proof.
  destruct rest as [|r rest]; cbn [join]; [done|].
  by rewrite !str_app_assoc.
Qed.

Lemma recommend_body_rendered r1 r2 env tr :
  join ", " (ingredients r1) = join ", " (ingredients r2) →
  str_optional (constraints r1) = str_optional (constraints r2) →
  (∃ e tr', recommend_body r1 env tr = (inl e, tr')
            ∧ recommend_body r2 env tr = (inl e, tr'))
  ∨ (∃ tr', recommend_body r1 env tr = (inr apology, tr')
            ∧ recommend_body r2 env tr = (inr apology, tr'))
  ∨ (∃ answer tr', recommend_body r1 env tr = (inr (success r1 answer), tr')
                   ∧ recommend_body r2 env tr = (inr (success r2 answer), tr')).
Proof.
  intros Hjoin Hc.
  assert (store_answer r2 env = store_answer r1 env) as Hstore
    by (unfold store_answer; by rewrite Hjoin).
  assert (the_query r2 = the_query r1) as Hquery
    by (unfold the_query; by rewrite Hjoin).
  assert (∀ data, build_prompt (ingredients r2) data (constraints r2)
                  = build_prompt (ingredients r1) data (constraints r1))
    as Hprompt by (intros data; by apply build_prompt_rendered).
  destruct (recommend_body_run r1 env tr) as
    [e H|results H Hdocs|results e H Hdocs Hmetas
    |results metas e H Hdocs Hmetas Hp|results metas prompt H Hdocs Hmetas Hp].
  - left. exists e, (tr ++ [the_query r1]). split; [done|].
    rewrite <-Hquery. apply recommend_body_store_raises. by rewrite Hstore.
  - right; left. exists (tr ++ [the_query r1]). split; [done|].
    rewrite <-Hquery. eapply recommend_body_no_documents; [|done].
    by rewrite Hstore.
  - left. exists e, (tr ++ [the_query r1]). split; [done|].
    rewrite <-Hquery. eapply recommend_body_indexing_raises; [|done..].
    by rewrite Hstore.
  - left. exists e, (tr ++ [the_query r1]). split; [done|].
    rewrite <-Hquery. eapply recommend_body_prompt_raises; [|done|done|].
    + by rewrite Hstore.
    + by rewrite Hprompt.
  - right; right.
    exists (generation_text env prompt),
      (tr ++ [the_query r1; EvGenerate prompt]).
    split; [done|].
    rewrite <-Hquery. eapply recommend_body_success; [|done|done|].
    + by rewrite Hstore.
    + by rewrite Hprompt.
Qed.

(** The store and the model see a request only through the text of its
    joined ingredients and the text of its constraints: two requests with the
    same two texts cause the same calls and the same exception, or the same
    recommendation. *)
Theorem calls_depend_on_rendered_request (r1 r2 : RecipeRequest) (env : Env)
    (tr : list Event) :
  join ", " (ingredients r1) = join ", " (ingredients r2) →
  str_optional (constraints r1) = str_optional (constraints r2) →
  (recommend_recipes r1 env tr).2 = (recommend_recipes r2 env tr).2
  ∧ (∀ h, (recommend_recipes r1 env tr).1 = inl h
          ↔ (recommend_recipes r2 env tr).1 = inl h)
  ∧ (∀ d1, (recommend_recipes r1 env tr).1 = inr d1 →
       ∃ d2, (recommend_recipes r2 env tr).1 = inr d2
             ∧ dict_lookup "recommendation" d1
               = dict_lookup "recommendation" d2).
Proof.
  intros Hjoin Hc. unfold recommend_recipes.
  destruct (recommend_body_rendered r1 r2 env tr Hjoin Hc)
    as [(e & tr' & -> & ->)|[(tr' & -> & ->)|(answer & tr' & -> & ->)]];
    cbn [fst snd]; repeat split; try done.
  - intros d1 ?; simplify_eq. eauto.
  - intros d1 ?; simplify_eq. eauto.
Qed.

(** The separator is not escaped: an ingredient that contains ", " causes
    the same store query and the same prompt as the two ingredients it
    reads as. *)
Theorem separator_not_escaped (a b : string) (rest : list string)
    (c : option string) (env : Env) (tr : list Event) :
  (recommend_recipes (mkRecipeRequest ((a +:+ ", " +:+ b) :: rest) c) env tr).2
  = (recommend_recipes (mkRecipeRequest (a :: b :: rest) c) env tr).2.
Proof.
  unfold recommend_recipes.
  destruct (recommend_body_rendered
              (mkRecipeRequest ((a +:+ ", " +:+ b) :: rest) c)
              (mkRecipeRequest (a :: b :: rest) c) env tr
              (join_separator ", " a b rest) eq_refl)
    as [(e & tr' & -> & ->)|[(tr' & -> & ->)|(answer & tr' & -> & ->)]];
    done.
Qed.

(** A run of the handler calls the store first and the model at most once
    after it, and it calls the model exactly when it returns the success
    dict. *)
Theorem model_called_iff_success (request : RecipeRequest) (env : Env)
    (tr : list Event) :
  ∃ sent : list string,
    (recommend_recipes request env tr).2
    = tr ++ the_query request :: (EvGenerate <$> sent)
    ∧ length sent ≤ 1
    ∧ (sent ≠ [] ↔
       ∃ answer,
         (recommend_recipes request env tr).1 = inr (success request answer)).
Proof.
  unfold recommend_recipes.
  destruct (recommend_body_run request env tr) as
    [e H|results H Hdocs|results e H Hdocs Hmetas
    |results metas e H Hdocs Hmetas Hp|results metas prompt H Hdocs Hmetas Hp].
  1-4: exists []; cbn [fst snd fmap list_fmap length];
       (split; [done|]); (split; [lia|]);
       split; [done | by intros [answer ?]].
  exists [prompt]. cbn [fst snd fmap list_fmap length].
  split; [done|]. split; [lia|]. split; [eauto | done].
Qed.

(** From the store to the response: when the store returns records that
    each have a mapping, and the model answers the prompt built from them,
    the endpoint returns the success dict whose recommendation is that
    answer, having made the store query and that one model call.  Result
    lists beyond the first are not read. *)
Theorem recommend_end_to_end (body : json) (request : RecipeRequest)
    (env : Env) (tr : list Event)
    (records : list (string * gmap string MetaValue))
    (more_documents : list (list string))
    (more_metadatas : list (list (option (gmap string MetaValue))))
    (response : GenerateContentResponse) (answer : string) :
  let prompt :=
    prompt_head (ingredients request) (constraints request)
    +:+ concat_str (imap (λ j r, option_section j r.2 r.1) records) in
  validate body = inr request →
  records ≠ [] →
  store_answer request env
  = inr (mkQueryResult (Some (records.*1 :: more_documents))
           (Some ((Some <$> records.*2) :: more_metadatas))) →
  model_generate_content env prompt = inr response →
  response_text response = inr answer →
  post_recommend body env tr
  = (JSONResponse (success request answer),
     tr ++ [the_query request; EvGenerate prompt]).
Proof.
  intros prompt Hvalid Hrecords H Hmodel Htext.
  rewrite (post_recommend_valid _ _ _ _ Hvalid).
  rewrite (recommend_recipes_returns _ _ _ _ _
             (recommend_body_success request env tr _ (Some <$> records.*2)
                prompt H ltac:(by destruct records) eq_refl
                ltac:(unfold build_prompt; cbn [retrieved_documents
                        qr_documents]; by rewrite build_context_records))).
  unfold generation_text. by rewrite Hmodel, Htext.
Qed.

(** Every 200 answer of [POST /recommend] has a string under
    [recommendation]. *)
Theorem ok_response_has_recommendation (body : json) (env : Env)
    (tr : list Event) (d : dict) :
  (post_recommend body env tr).1 = JSONResponse d →
  ∃ text, dict_lookup "recommendation" d = Some (JStr text).
Proof.
  unfold post_recommend.
  destruct (validate body) as [error|request]; [done|].
  unfold recommend_recipes.
  destruct (recommend_body_run request env tr); cbn [fst];
    intros ?; simplify_eq; cbn; eauto.
Qed.

(** When the store returns documents but its [metadatas] field is [None] or
    an empty list, indexing it raises and the request ends as a 500 that
    carries the text of the [TypeError] or [IndexError]; the model is not
    called. *)
Theorem missing_metadatas_is_500 (request : RecipeRequest) (env : Env)
    (tr : list Event) (results : QueryResult) :
  store_answer request env = inr results →
  retrieved_documents results ≠ [] →
  (qr_metadatas results = None →
   recommend_recipes request env tr
   = (inl (mkHTTPException 500
             "Internal Server Error: 'NoneType' object is not subscriptable"),
      tr ++ [the_query request]))
  ∧ (qr_metadatas results = Some [] →
     recommend_recipes request env tr
     = (inl (mkHTTPException 500
               "Internal Server Error: list index out of range"),
        tr ++ [the_query request])).
Proof.
  intros H Hdocs. split; intros Hmetas.
  - apply (recommend_recipes_raises request env tr TypeError_subscript).
    apply (recommend_body_indexing_raises _ _ _ results); [done..|].
    by rewrite Hmetas.
  - apply (recommend_recipes_raises request env tr IndexError_list).
    apply (recommend_body_indexing_raises _ _ _ results); [done..|].
    by rewrite Hmetas.
Qed.

(** A failure of the model cannot be told from an answer: a model that
    raises [e] and a model that answers with the text "Error generating
    content: " followed by the text of [e] give the same result and the same
    calls. *)
Theorem model_failure_reads_as_answer
    (store : list string → nat → list string → Exception + QueryResult)
    (e : Exception) (request : RecipeRequest) (tr : list Event) :
  recommend_recipes request (mkEnv store (λ _, inl e)) tr
  = recommend_recipes request
      (mkEnv store
         (λ _, inr (mkResponse
                      (inr ("Error generating content: " +:+ exc_str e)))))
      tr.
Proof.
  unfold recommend_recipes.
  set (failing := mkEnv store (λ _, inl e)).
  set (answering := mkEnv store _).
  destruct (recommend_body_run request failing tr) as
    [e' H|results H Hdocs|results e' H Hdocs Hmetas
    |results metas e' H Hdocs Hmetas Hp|results metas prompt H Hdocs Hmetas Hp].
  - by rewrite (recommend_body_store_raises request answering tr e' H).
  - by rewrite (recommend_body_no_documents request answering tr results H).
  - by rewrite (recommend_body_indexing_raises request answering tr results e'
                  H Hdocs Hmetas).
  - by rewrite (recommend_body_prompt_raises request answering tr results
                  metas e' H Hdocs Hmetas Hp).
  - by rewrite (recommend_body_success request answering tr results metas
                  prompt H Hdocs Hmetas Hp).
Qed.

(** ** Validation, start-up and the health check *)

Lemma as_str_list_strings strings :
  as_str_list (JStr <$> strings) = Some strings.
Proof.
  induction strings as [|s strings IH]; [done|].
  cbn [fmap list_fmap as_str_list]. fold (fmap (M := list) JStr strings).
  by rewrite IH.
Qed.

(** Every value of the request model is the validation of a body: the body
    that carries its fields validates to it. *)
Theorem validate_request_body (request : RecipeRequest) :
  validate (request_body request) = inr request.
Proof.
  destruct request as [items c].
  unfold validate, request_body. cbn [ingredients constraints].
  assert (dict_lookup "ingredients"
            [("ingredients", JArr (JStr <$> items));
             ("constraints", json_of_optional c)]
          = Some (JArr (JStr <$> items))) as ->.
  { cbn [dict_lookup]. rewrite decide_False by done.
    by rewrite decide_True. }
  assert (dict_lookup "constraints"
            [("ingredients", JArr (JStr <$> items));
             ("constraints", json_of_optional c)]
          = Some (json_of_optional c)) as ->.
  { cbn [dict_lookup]. by rewrite decide_True. }
  rewrite as_str_list_strings. by destruct c.
Qed.


(** The health check raises exactly what [collection.count()] raises and
    otherwise reports that count, together with the model name that start-up
    gave to the generation client. *)
Theorem health_check_reports (collection_count : Exception + Z)
    (environ dotenv : gmap string string) :
  (∀ e, health_check collection_count = inl e ↔ collection_count = inl e)
  ∧ (∀ n, collection_count = inr n →
       ∃ d,
         health_check collection_count = inr d
         ∧ dict_lookup "status" d = Some (JStr "online")
         ∧ dict_lookup "database_count" d = Some (JNum n)
         ∧ ∀ name,
             EvGenerativeModel name ∈ (module_init environ dotenv).2 →
             dict_lookup "model" d = Some (JStr name)).
Proof.
  split.
  - intros e. destruct collection_count as [e'|n]; cbn; naive_solver.
  - intros n ->. eexists. split; [reflexivity|].
    split; [done|]. split; [done|].
    intros name. unfold module_init.
    destruct (falsy_str _); cbn [snd].
    + by intros ?%elem_of_nil.
    + rewrite !elem_of_cons, elem_of_nil.
      intros [?|[?|[?|[?|[?|[]]]]]]; by simplify_eq.
Qed.

(** ** The further properties at sample inputs *)

Lemma build_prompt_first_failure_witness :
  1 < length ["Mix and fry."; "Boil."]
  ∧ build_prompt ["eggs"]
      (mkRecipesData ["Mix and fry."; "Boil."] [Some pancakes; None])
      (Some "None")
    = inl AttributeError_get.
Proof.
  split; [simpl; lia|].
  refine (proj2 (build_prompt_first_failure ["eggs"]
                   (mkRecipesData ["Mix and fry."; "Boil."]
                      [Some pancakes; None])
                   (Some "None") 1 _ _) eq_refl).
  - simpl. lia.
  - intros [|j] Hj; [exists pancakes; reflexivity | lia].
Defined.

Lemma build_prompt_reads_three_keys_witness :
  pancakes_full !! "Cuisine" ≠ pancakes !! "Cuisine"
  ∧ build_prompt ["eggs"]
      (mkRecipesData ["Mix and fry."] [Some pancakes_full]) (Some "None")
    = build_prompt ["eggs"]
        (mkRecipesData ["Mix and fry."] [Some pancakes]) (Some "None").
Proof.
  split; [vm_compute; discriminate|].
  apply (build_prompt_reads_three_keys ["eggs"] ["Mix and fry."]
           [Some pancakes_full] [Some pancakes] (Some "None")).
  intros [|j].
  - change (same_for_prompt (Some (Some pancakes_full))
              (Some (Some pancakes))).
    unfold same_for_prompt. repeat split; vm_compute; reflexivity.
  - exact I.
Defined.

Lemma calls_depend_on_rendered_request_witness :
  let env := mkEnv (store_of ["Mix and fry."] [Some pancakes]) model_up in
  join ", " ["eggs, flour"] = join ", " ["eggs"; "flour"]
  ∧ str_optional None = str_optional (Some "None")
  ∧ (recommend_recipes (mkRecipeRequest ["eggs, flour"] None) env []).2
    = (recommend_recipes eggs_flour env []).2.
Proof.
  intros env. split; [reflexivity|]. split; [reflexivity|].
  exact (proj1 (calls_depend_on_rendered_request
                  (mkRecipeRequest ["eggs, flour"] None) eggs_flour env []
                  eq_refl eq_refl)).
Defined.

Lemma recommend_end_to_end_witness :
  let env := mkEnv (store_of ["Mix and fry."] [Some pancakes]) model_up in
  validate eggs_flour_body = inr eggs_flour
  ∧ post_recommend eggs_flour_body env []
    = (JSONResponse (success eggs_flour "Try the pancakes."),
       [] ++ [the_query eggs_flour;
              EvGenerate
                (prompt_head ["eggs"; "flour"] (Some "None")
                 +:+ concat_str [option_section 0 pancakes "Mix and fry."])]).
Proof.
  intros env. split; [reflexivity|].
  refine (recommend_end_to_end eggs_flour_body eggs_flour env []
            [("Mix and fry.", pancakes)] [] []
            (mkResponse (inr "Try the pancakes.")) "Try the pancakes."
            eq_refl _ eq_refl eq_refl eq_refl).
  discriminate.
Defined.

Lemma ok_response_has_recommendation_witness :
  let env := mkEnv (store_of [] []) model_up in
  (post_recommend eggs_flour_body env []).1 = JSONResponse apology
  ∧ ∃ text, dict_lookup "recommendation" apology = Some (JStr text).
Proof.
  intros env.
  assert ((post_recommend eggs_flour_body env []).1 = JSONResponse apology)
    as Hrun by (vm_compute; reflexivity).
  split; [exact Hrun|].
  exact (ok_response_has_recommendation eggs_flour_body env [] apology Hrun).
Defined.

Lemma missing_metadatas_is_500_witness :
  let results := mkQueryResult (Some [["Mix and fry."]]) None in
  let env := mkEnv (λ _ _ _, inr results) model_up in
  retrieved_documents results ≠ []
  ∧ recommend_recipes eggs_flour env []
    = (inl (mkHTTPException 500
              "Internal Server Error: 'NoneType' object is not subscriptable"),
       [] ++ [the_query eggs_flour]).
Proof.
  intros results env.
  assert (retrieved_documents results ≠ []) as Hdocs by discriminate.
  split; [exact Hdocs|].
  exact (proj1 (missing_metadatas_is_500 eggs_flour env [] results
                  eq_refl Hdocs) eq_refl).
Defined.


(** * The prompt builder on shared objects *)

Lemma bind_read {A B} (f : gmap nat Object → Outcome A) (k : A → P B)
    env σ tr :
  (read f ≫= k) env σ tr
  = match f σ with
    | Returns a => k a env σ tr
    | Raises e => (Raises e, σ, tr)
    | Stuck => (Stuck, σ, tr)
    end.
Proof. unfold mbind, P_bind, read. by destruct (f σ). Qed.

Lemma context_steps_refines env (σ : gmap nat Object) tr recipes_data docs
    ds (items : gmap string nat) ml entries metas :
  σ !! docs = Some (StrList ds) →
  σ !! recipes_data = Some (DataDict items) →
  items !! "metadatas" = Some ml →
  σ !! ml = Some (MetaList entries) →
  mapM (the_mapping σ) entries = Some metas →
  ∀ steps i context_text,
    i ≤ length ds → length ds < steps + i →
    context_steps steps recipes_data docs i context_text env σ tr
    = (outcome_of (context_loop metas i (drop i ds) context_text), σ, tr).
Proof.
  intros Hdocs Hdata Hml Hentries Hmetas.
  apply mapM_Some in Hmetas.
  induction steps as [|steps IH]; intros i context_text Hi Hsteps; [lia|].
  cbn [context_steps]. unfold next_item.
  rewrite bind_read, Hdocs.
  destruct (ds !! i) as [doc|] eqn:Hdoc.
  - rewrite (drop_S _ _ _ Hdoc). cbn [context_loop].
    unfold getitem. rewrite bind_read, Hdata, Hml.
    unfold getitem_meta. rewrite bind_read, Hentries.
    destruct (entries !! i) as [entry|] eqn:Hentry.
    + destruct (Forall2_lookup_l _ _ _ _ _ Hmetas Hentry)
        as (meta & -> & Hmeta).
      unfold mapping_of. rewrite bind_read.
      destruct entry as [m|]; cbn in Hmeta.
      * destruct (σ !! m) as [[| |mapping|]|]; simplify_eq.
        apply lookup_lt_Some in Hdoc. apply IH; lia.
      * by simplify_eq.
    + apply Forall2_length in Hmetas.
      apply lookup_ge_None in Hentry.
      by rewrite (proj2 (lookup_ge_None metas i)) by lia.
  - apply lookup_ge_None in Hdoc.
    by rewrite drop_ge by done.
Qed.

Lemma P_bind_returns {A B} (m : P A) (k : A → P B) env σ tr a σ' tr' :
  m env σ tr = (Returns a, σ', tr') → (m ≫= k) env σ tr = k a env σ' tr'.
Proof. intros H. unfold mbind, P_bind. by rewrite H. Qed.

Lemma P_bind_raises {A B} (m : P A) (k : A → P B) env σ tr e σ' tr' :
  m env σ tr = (Raises e, σ', tr') →
  (m ≫= k) env σ tr = (Raises e, σ', tr').
Proof. intros H. unfold mbind, P_bind. by rewrite H. Qed.

Lemma build_context_shared_refines env (σ : gmap nat Object) tr recipes_data
    data :
  the_recipes σ recipes_data = Some data →
  build_context_shared recipes_data env σ tr
  = (outcome_of (build_context data), σ, tr).
Proof.
  unfold the_recipes, the_strings. intros Hdata.
  destruct (σ !! recipes_data) as [[| | |items]|] eqn:Hd; try done.
  destruct (items !! "documents") as [docs|] eqn:Hdocs; [|done].
  destruct (items !! "metadatas") as [ml|] eqn:Hml; [|done].
  cbn [mbind option_bind] in Hdata.
  destruct (σ !! docs) as [[ds| | |]|] eqn:Hds; try done.
  cbn [mbind option_bind] in Hdata.
  destruct (σ !! ml) as [[|entries| |]|] eqn:Hentries; try done.
  destruct (mapM (the_mapping σ) entries) as [metas|] eqn:Hmetas;
    [|done].
  cbn [mbind option_bind] in Hdata. simplify_eq.
  unfold build_context_shared, getitem, len.
  rewrite bind_read, Hd, Hdocs. rewrite bind_read, Hds.
  rewrite (context_steps_refines env σ tr recipes_data docs ds items ml
             entries metas Hds Hd Hml Hentries Hmetas) by lia.
  by rewrite drop_0.
Qed.

Lemma build_prompt_shared_refines env (σ : gmap nat Object) tr
    available_ingredients recipes_data constraints ingredients data :
  the_strings σ available_ingredients = Some ingredients →
  the_recipes σ recipes_data = Some data →
  build_prompt_shared available_ingredients recipes_data constraints env σ tr
  = (outcome_of (build_prompt ingredients data constraints), σ, tr).
Proof.
  unfold the_strings. intros Hingredients Hdata.
  destruct (σ !! available_ingredients) as [[xs| | |]|] eqn:Hxs;
    simplify_eq.
  pose proof (build_context_shared_refines env σ tr recipes_data data Hdata)
    as Hcontext.
  unfold build_prompt_shared, build_prompt.
  destruct (build_context data) as [e|context_text]; cbn [outcome_of] in *.
  - by apply P_bind_raises.
  - rewrite (P_bind_returns _ _ _ _ _ _ _ _ Hcontext).
    unfold items_of. by rewrite bind_read, Hxs.
Qed.

Lemma format_with_gemini_shared_refines env (σ : gmap nat Object) tr
    available_ingredients recipes_data constraints ingredients data :
  the_strings σ available_ingredients = Some ingredients →
  the_recipes σ recipes_data = Some data →
  format_with_gemini_shared available_ingredients recipes_data constraints
    env σ tr
  = (outcome_of
       (format_with_gemini ingredients data constraints env tr).1,
     σ,
     (format_with_gemini ingredients data constraints env tr).2).
Proof.
  intros Hingredients Hdata.
  pose proof (build_prompt_shared_refines env σ tr _ _ constraints _ _
                Hingredients Hdata) as Hprompt.
  unfold format_with_gemini_shared.
  destruct (build_prompt ingredients data constraints) as [e|prompt] eqn:Hb;
    cbn [outcome_of] in Hprompt.
  - rewrite (P_bind_raises _ _ _ _ _ _ _ _ Hprompt).
    by rewrite (format_with_gemini_raises _ _ _ _ env tr Hb).
  - rewrite (P_bind_returns _ _ _ _ _ _ _ _ Hprompt).
    rewrite (format_with_gemini_generates _ _ _ _ env tr Hb).
    unfold call. by rewrite generate_returns.
Qed.

(** C6: the prompt builder changes no object, calls nothing, and its prompt
    is decided by the values of its three arguments.  Take two runs, in any
    two environments, stores and traces, whose argument references stand for
    the same ingredients and the same records, however the objects are laid
    out or shared, with the same constraints.  Both runs end the same way,
    with the prompt (or the exception) that [build_prompt] gives for these
    values; each leaves its store and its trace as they were; and when a
    prompt is built it is the one text that [format_with_gemini] sends to
    the model in either run, again without changing an object. *)
Theorem prompt_builder_pure (constraints : option string)
    (ingredients : list string) (data : RecipesData) (env1 env2 : Env)
    (σ1 σ2 : gmap nat Object) (tr1 tr2 : list Event) (a1 d1 a2 d2 : nat) :
  the_strings σ1 a1 = Some ingredients →
  the_recipes σ1 d1 = Some data →
  the_strings σ2 a2 = Some ingredients →
  the_recipes σ2 d2 = Some data →
  ∃ outcome : Outcome string,
    build_prompt_shared a1 d1 constraints env1 σ1 tr1 = (outcome, σ1, tr1)
    ∧ build_prompt_shared a2 d2 constraints env2 σ2 tr2 = (outcome, σ2, tr2)
    ∧ outcome = outcome_of (build_prompt ingredients data constraints)
    ∧ (format_with_gemini_shared a1 d1 constraints env1 σ1 tr1).1.2 = σ1
    ∧ (format_with_gemini_shared a2 d2 constraints env2 σ2 tr2).1.2 = σ2
    ∧ ∀ prompt,
        outcome = Returns prompt →
        (format_with_gemini_shared a1 d1 constraints env1 σ1 tr1).2
        = tr1 ++ [EvGenerate prompt]
        ∧ (format_with_gemini_shared a2 d2 constraints env2 σ2 tr2).2
          = tr2 ++ [EvGenerate prompt].
Proof.
  intros Ha1 Hd1 Ha2 Hd2.
  exists (outcome_of (build_prompt ingredients data constraints)).
  split; [by apply build_prompt_shared_refines|].
  split; [by apply build_prompt_shared_refines|].
  split; [done|].
  rewrite (format_with_gemini_shared_refines env1 σ1 tr1 a1 d1 constraints
             ingredients data Ha1 Hd1).
  rewrite (format_with_gemini_shared_refines env2 σ2 tr2 a2 d2 constraints
             ingredients data Ha2 Hd2).
  split; [done|]. split; [done|].
  intros prompt Hprompt. cbn [snd].
  destruct (build_prompt ingredients data constraints) as [e|prompt'] eqn:Hb;
    cbn [outcome_of] in Hprompt; simplify_eq.
  by rewrite (format_with_gemini_generates _ _ _ _ env1 tr1 Hb),
    (format_with_gemini_generates _ _ _ _ env2 tr2 Hb).
Qed.

(** For contrast, a statement that changes an object: after
    [documents.clear()] the store is another one and the builder, run on the
    same references, gives another prompt. *)
Example clear_changes_store_and_prompt :
  let env := mkEnv (store_of [] []) model_up in
  (clear 11 env store_aliased []).1.2 ≠ store_aliased
  ∧ ((clear 11 ≫= λ _, build_prompt_shared 11 10 (Some "None"))
       env store_aliased []).1.1
    ≠ (build_prompt_shared 11 10 (Some "None") env store_aliased []).1.1.
Proof.
  intros env. split.
  - intros H.
    assert ((clear 11 env store_aliased []).1.2 !! 11
            = store_aliased !! 11) as Hlookup by (by rewrite H).
    vm_compute in Hlookup. discriminate Hlookup.
  - vm_compute. discriminate.
Qed.

Lemma prompt_builder_pure_witness :
  let env1 := mkEnv (store_of [] []) model_up in
  let env2 := mkEnv (store_of [] []) model_down in
  let data := mkRecipesData ["eggs"; "flour"] [Some pancakes; Some pancakes] in
  the_recipes store_apart 2 = Some data
  ∧ the_recipes store_aliased 10 = Some data
  ∧ ∃ outcome,
      build_prompt_shared 1 2 (Some "None") env1 store_apart []
      = (outcome, store_apart, [])
      ∧ build_prompt_shared 11 10 (Some "None") env2 store_aliased
          [EvQuery ["eggs, flour"] 3 ["documents"; "metadatas"]]
        = (outcome, store_aliased,
           [EvQuery ["eggs, flour"] 3 ["documents"; "metadatas"]])
      ∧ outcome
        = outcome_of (build_prompt ["eggs"; "flour"] data (Some "None")).
Proof.
  intros env1 env2 data.
  assert (the_recipes store_apart 2 = Some data) as Hd1
    by (vm_compute; reflexivity).
  assert (the_recipes store_aliased 10 = Some data) as Hd2
    by (vm_compute; reflexivity).
  assert (the_strings store_apart 1 = Some ["eggs"; "flour"]) as Ha1
    by (vm_compute; reflexivity).
  assert (the_strings store_aliased 11 = Some ["eggs"; "flour"]) as Ha2
    by (vm_compute; reflexivity).
  split; [exact Hd1|]. split; [exact Hd2|].
  destruct (prompt_builder_pure (Some "None") ["eggs"; "flour"] data
              env1 env2 store_apart store_aliased []
              [EvQuery ["eggs, flour"] 3 ["documents"; "metadatas"]]
              1 2 11 10 Ha1 Hd1 Ha2 Hd2)
    as (outcome & Hrun1 & Hrun2 & Houtcome & _).
  exists outcome. split; [exact Hrun1|]. split; [exact Hrun2|exact Houtcome].
Defined.
